(** * Traffic anomaly detection: training and scoring scripts

    A shallow embedding of [airflow/dags/train_iforest.py] and
    [airflow/dags/score_iforest.py], together with the parts of pandas,
    scikit-learn and MLflow the two scripts call.

    Conventions.
    - A pandas [DataFrame] is an ordered list of named columns; a column
      carries its dtype and its cells.
    - float64 values are modelled by rationals ([Q]); rounding is not
      modelled, the square root of the scaler and the isolation forest are
      taken from the [Library] interface.
    - A script is a function from the world (files, run registry, artifact
      store, clock) to a result and a new world; a Python exception is the
      [Raise] result. *)

From Stdlib Require Import List String Ascii ZArith QArith Bool Lia.
From Stdlib Require Import Qabs Lqa Permutation Sorted DecimalString.
Import ListNotations.
Local Open Scope string_scope.
Local Open Scope list_scope.
Local Open Scope Z_scope.

(* ================================================================== *)
(** * Python exceptions *)

Module Py.

(** The exceptions the two scripts can end with. [ColumnsMissing diff] is
    scikit-learn's [ValueError(f"columns are missing: {diff}")]; the set
    [diff] is kept as data because Python prints a set in no fixed order. *)
Inductive exn : Type :=
| ValueError (msg : string)
| ColumnsMissing (diff : list string)
| TypeError (msg : string)
| FileNotFoundError (path : string)
| MlflowException (msg : string).

Inductive result (A : Type) : Type :=
| Ok (a : A)
| Raise (e : exn).

Arguments Ok {A} a.
Arguments Raise {A} e.

Definition bind {A B : Type} (r : result A) (k : A -> result B) : result B :=
  match r with
  | Ok a => k a
  | Raise e => Raise e
  end.

Fixpoint mapM {A B : Type} (f : A -> result B) (l : list A) : result (list B) :=
  match l with
  | [] => Ok []
  | a :: l' =>
      bind (f a) (fun b => bind (mapM f l') (fun bs => Ok (b :: bs)))
  end.

Definition is_ok {A : Type} (r : result A) : bool :=
  match r with Ok _ => true | Raise _ => false end.

End Py.
Import Py.

Declare Scope py_scope.
Delimit Scope py_scope with py.
Notation "x <- c ;; k" := (Py.bind c (fun x => k))
  (at level 100, c at next level, right associativity) : py_scope.
Local Open Scope py_scope.

(* ================================================================== *)
(** * pandas *)

Module Pandas.

(** The dtypes a column of these scripts can have: the four that
    [read_csv] infers, and [int32], the dtype of the [.dt] date fields of a
    datetime column without missing values. *)
Inductive dtype : Type := int64 | float64 | object_ | bool_ | int32.

Definition dtype_eqb (a b : dtype) : bool :=
  match a, b with
  | int64, int64 | float64, float64 | object_, object_
  | bool_, bool_ | int32, int32 => true
  | _, _ => false
  end.

(** One cell of a column; [NaN] is the missing value. *)
Inductive cell : Type :=
| NaN
| VInt (z : Z)
| VFloat (q : Q)
| VStr (s : string)
| VBool (b : bool).

Record Series : Type := mkSeries { s_dtype : dtype; s_values : list cell }.

Definition DataFrame : Type := list (string * Series).

(** [df.columns] *)
Definition columns (df : DataFrame) : list string := map fst df.

(** [c in df.columns] *)
Definition has_column (c : string) (df : DataFrame) : bool :=
  existsb (String.eqb c) (columns df).

(** [df[c]]; [None] stands for [KeyError]. *)
Fixpoint get_column (c : string) (df : DataFrame) : option Series :=
  match df with
  | [] => None
  | (n, s) :: df' => if String.eqb c n then Some s else get_column c df'
  end.

(** [len(df)] *)
Definition nrows (df : DataFrame) : nat :=
  match df with
  | [] => 0%nat
  | (_, s) :: _ => List.length (s_values s)
  end.

Fixpoint replace_column (c : string) (s : Series) (df : DataFrame) : DataFrame :=
  match df with
  | [] => []
  | (n, s') :: df' =>
      if String.eqb c n then (n, s) :: df'
      else (n, s') :: replace_column c s df'
  end.

(** [df[c] = s]: an existing column is overwritten where it stands, a new
    one is appended after the last column. *)
Definition set_column (c : string) (s : Series) (df : DataFrame) : DataFrame :=
  if has_column c df then replace_column c s df else df ++ [(c, s)].

(** [df.drop(columns=cs)] for names that are present. *)
Definition drop_columns (cs : list string) (df : DataFrame) : DataFrame :=
  filter (fun p => negb (existsb (String.eqb (fst p)) cs)) df.

(** [df.select_dtypes(include=incl).columns] *)
Definition select_dtypes (incl : list dtype) (df : DataFrame) : list string :=
  columns (filter (fun p => existsb (dtype_eqb (s_dtype (snd p))) incl) df).

(** A calendar date, as far as the scripts look at it. *)
Record date : Type := mkDate { d_year : Z; d_month : Z; d_day : Z }.

(** [pd.to_datetime(s, errors="coerce", format="mixed")]: a missing cell
    is [NaT]; any other cell goes through the parser, and what the parser
    rejects becomes [NaT] as well. [NaT] is [None]. *)
Definition to_datetime (parse : cell -> option date) (s : Series)
  : list (option date) :=
  map (fun c => match c with NaN => None | _ => parse c end) (s_values s).

Definition is_some {A : Type} (o : option A) : bool :=
  match o with Some _ => true | None => false end.

(** [dt.dt.year], [dt.dt.month], [dt.dt.day]: an int32 column when no
    entry is [NaT] (the date fields are 32-bit since pandas 2.0, the first
    version that knows [format="mixed"]), a float64 column with [NaN] at
    the [NaT] entries otherwise. *)
Definition dt_field (f : date -> Z) (dt : list (option date)) : Series :=
  if forallb is_some dt then
    mkSeries int32
      (map (fun o => match o with Some d => VInt (f d) | None => NaN end) dt)
  else
    mkSeries float64
      (map (fun o => match o with
                     | Some d => VFloat (inject_Z (f d))
                     | None => NaN
                     end) dt).

End Pandas.
Import Pandas.

(* ================================================================== *)
(** * Code outside the repository

    What the scripts call and this development does not define: the
    timestamp parser behind [pd.to_datetime], floating-point square root,
    and the isolation forest of scikit-learn, which is built from the seed,
    the number of trees and the feature matrix and gives every feature row
    its [score_samples] value. *)

Class Library : Type := {
  parse_scalar : cell -> option date;
  fsqrt : Q -> Q;
  forest : Type;
  iforest_fit : Z -> nat -> list (list Q) -> forest;
  score_samples : forest -> list Q -> Q
}.

(* ================================================================== *)
(** * scikit-learn *)

Module Sklearn.

(** ** Helpers on lists *)

Fixpoint insert_by {A : Type} (leb : A -> A -> bool) (x : A) (l : list A)
  : list A :=
  match l with
  | [] => [x]
  | y :: l' => if leb x y then x :: l else y :: insert_by leb x l'
  end.

Definition sort_by {A : Type} (leb : A -> A -> bool) (l : list A) : list A :=
  fold_right (insert_by leb) [] l.

Fixpoint dedup_by {A : Type} (eqb : A -> A -> bool) (l : list A) : list A :=
  match l with
  | [] => []
  | x :: l' => x :: filter (fun y => negb (eqb x y)) (dedup_by eqb l')
  end.

Definition Qsum (l : list Q) : Q := fold_right Qplus 0%Q l.

Definition Qlen {A : Type} (l : list A) : Q := inject_Z (Z.of_nat (List.length l)).

(** ** Numeric branch: [SimpleImputer(strategy="median")] then
    [StandardScaler()] *)

(** Conversion of the selected cells to a float array; [None] is [nan]. A
    text cell cannot be converted. *)
Definition to_float (c : cell) : result (option Q) :=
  match c with
  | NaN => Ok None
  | VInt z => Ok (Some (inject_Z z))
  | VFloat q => Ok (Some q)
  | VBool b => Ok (Some (if b then 1%Q else 0%Q))
  | VStr _ => Raise (ValueError "Cannot use median strategy with non-numeric data")
  end.

Definition present {A : Type} (l : list (option A)) : list A :=
  flat_map (fun o => match o with Some a => [a] | None => [] end) l.

(** Median of the values that are not missing; [None] when all are. *)
Definition median (l : list Q) : option Q :=
  let s := sort_by Qle_bool l in
  let n := List.length s in
  match n with
  | O => None
  | _ =>
      if Nat.odd n then Some (nth (n / 2) s 0%Q)
      else Some (Qred ((nth (n / 2 - 1) s 0%Q + nth (n / 2) s 0%Q) / 2))
  end.

Definition impute {A : Type} (fill : A) (o : option A) : A :=
  match o with Some a => a | None => fill end.

Record StandardScaler : Type := mkScaler { mean_ : Q; scale_ : Q }.

Definition Qmean (l : list Q) : Q := Qred (Qsum l / Qlen l).

Definition Qvar (l : list Q) : Q :=
  let m := Qmean l in
  Qred (Qsum (map (fun x => (x - m) * (x - m))%Q l) / Qlen l).

Definition scale (sc : StandardScaler) (x : Q) : Q :=
  Qred ((x - mean_ sc) / scale_ sc).

Section WithLibrary.
Context {L : Library}.

(** [StandardScaler.fit]: a constant column keeps its scale at one. *)
Definition scaler_fit (l : list Q) : StandardScaler :=
  let v := Qvar l in
  mkScaler (Qmean l) (if Qeq_bool v 0 then 1%Q else fsqrt v).

(** A fitted numeric column: the median and the scaler, or [None] when the
    column had no value at fit time and the imputer leaves it out. *)
Definition NumFitted : Type := option (Q * StandardScaler).

Definition num_fit (vals : list (option Q)) : NumFitted :=
  match median (present vals) with
  | None => None
  | Some m => Some (m, scaler_fit (map (impute m) vals))
  end.

End WithLibrary.

(** One feature block per row, or [None] for a column left out. *)
Definition num_transform (f : NumFitted) (vals : list (option Q))
  : option (list (list Q)) :=
  match f with
  | None => None
  | Some (m, sc) => Some (map (fun o => [scale sc (impute m o)]) vals)
  end.

(** ** Categorical branch: [SimpleImputer(strategy="most_frequent")] then
    [OneHotEncoder(handle_unknown="ignore")] *)

Definition num_of (c : cell) : option Q :=
  match c with
  | VInt z => Some (inject_Z z)
  | VFloat q => Some q
  | VBool b => Some (if b then 1%Q else 0%Q)
  | _ => None
  end.

(** Python [==] on cells: text with text, numbers and booleans by value;
    [nan] equals nothing. *)
Definition py_eqb (a b : cell) : bool :=
  match a, b with
  | VStr s, VStr t => String.eqb s t
  | _, _ =>
      match num_of a, num_of b with
      | Some x, Some y => Qeq_bool x y
      | _, _ => false
      end
  end.

(** Python [<=] on cells of one kind. *)
Definition py_leb (a b : cell) : bool :=
  match a, b with
  | VStr s, VStr t => String.leb s t
  | _, _ =>
      match num_of a, num_of b with
      | Some x, Some y => Qle_bool x y
      | _, _ => false
      end
  end.

Definition is_nan (c : cell) : bool :=
  match c with NaN => true | _ => false end.

Definition is_str (c : cell) : bool :=
  match c with VStr _ => true | _ => false end.

(** Text and numbers in one column cannot be ordered. *)
Definition uniform_kind (l : list cell) : bool :=
  negb (existsb is_str l && existsb (fun c => is_some (num_of c)) l).

Definition count_of (v : cell) (l : list cell) : nat :=
  List.length (filter (py_eqb v) l).

(** The most frequent value, the smallest one among equally frequent
    values; [None] for an empty list. *)
Definition most_frequent (l : list cell) : option cell :=
  fold_left
    (fun best v =>
       match best with
       | None => Some v
       | Some b => if (count_of b l <? count_of v l)%nat then Some v else best
       end)
    (sort_by py_leb (dedup_by py_eqb l)) None.

Definition impute_cell (fill : cell) (c : cell) : cell :=
  if is_nan c then fill else c.

Inductive handle_unknown : Type := hu_error | hu_ignore.

(** A fitted categorical column: the fill value of the imputer, the
    vocabulary of the encoder ([categories_], sorted) and what the encoder
    does with a value outside it. *)
Record OneHot : Type := mkOneHot {
  fill_value : cell;
  categories_ : list cell;
  unknown : handle_unknown
}.

Definition CatFitted : Type := option OneHot.

Definition cat_fit (hu : handle_unknown) (cells : list cell) : result CatFitted :=
  let vals := filter (fun c => negb (is_nan c)) cells in
  if uniform_kind vals then
    match most_frequent vals with
    | None => Ok None
    | Some f =>
        Ok (Some (mkOneHot f
                    (sort_by py_leb (dedup_by py_eqb (map (impute_cell f) cells)))
                    hu))
    end
  else
    Raise (TypeError "Encoders require their input argument must be uniformly strings or numbers")%string.

(** The indicator row of one value. *)
Definition onehot (e : OneHot) (v : cell) : result (list Q) :=
  if existsb (py_eqb v) (categories_ e) then
    Ok (map (fun c => if py_eqb v c then 1%Q else 0%Q) (categories_ e))
  else
    match unknown e with
    | hu_error => Raise (ValueError "Found unknown categories during transform")
    | hu_ignore => Ok (map (fun _ => 0%Q) (categories_ e))
    end.

Definition cat_transform (f : CatFitted) (cells : list cell)
  : result (option (list (list Q))) :=
  match f with
  | None => Ok None
  | Some e =>
      blocks <- mapM (fun c => onehot e (impute_cell (fill_value e) c)) cells ;;
      Ok (Some blocks)
  end.

(** ** [ColumnTransformer] *)

(** The fitted transformer: the numeric and the categorical column names
    given at construction, each with what its branch learned. Columns of
    the frame outside both lists are dropped ([remainder="drop"], the
    default). *)
Record ColumnTransformer : Type := mkCT {
  num_part : list (string * NumFitted);
  cat_part : list (string * CatFitted)
}.

Definition num_cols (ct : ColumnTransformer) : list string := map fst (num_part ct).
Definition cat_cols (ct : ColumnTransformer) : list string := map fst (cat_part ct).

(** The columns the transformer selects by name. *)
Definition schema (ct : ColumnTransformer) : list string :=
  num_cols ct ++ cat_cols ct.

Definition fetch (c : string) (df : DataFrame) : result Series :=
  match get_column c df with
  | Some s => Ok s
  | None => Raise (ValueError "A given column is not a column of the dataframe")
  end.

(** Side by side: row [i] of the result is the concatenation of row [i]
    of every block. *)
Definition hstack (n : nat) (blocks : list (list (list Q))) : list (list Q) :=
  map (fun i => flat_map (fun col => nth i col []) blocks) (seq 0 n).

Definition num_column (df : DataFrame) (cf : string * NumFitted)
  : result (option (list (list Q))) :=
  s <- fetch (fst cf) df ;;
  vals <- mapM to_float (s_values s) ;;
  Ok (num_transform (snd cf) vals).

Definition cat_column (df : DataFrame) (cf : string * CatFitted)
  : result (option (list (list Q))) :=
  s <- fetch (fst cf) df ;;
  cat_transform (snd cf) (s_values s).

(** [ColumnTransformer.transform] on a frame: the names seen at fit time
    are looked up in the frame, and a name that is not there is an error. *)
Definition ct_transform (ct : ColumnTransformer) (df : DataFrame)
  : result (list (list Q)) :=
  match filter (fun c => negb (has_column c df)) (schema ct) with
  | [] =>
      nums <- mapM (num_column df) (num_part ct) ;;
      cats <- mapM (cat_column df) (cat_part ct) ;;
      Ok (hstack (nrows df) (present nums ++ present cats))
  | diff => Raise (ColumnsMissing diff)
  end.

Definition column_dtype_is (t : dtype) (df : DataFrame) (c : string) : bool :=
  match get_column c df with
  | Some s => dtype_eqb (s_dtype s) t
  | None => false
  end.

Section Fit.
Context {L : Library}.

(** [ColumnTransformer.fit] with the two branches of the training script.
    The imputer refuses an empty array, and a categorical selection made
    of boolean columns only. *)
Definition ct_fit (num cat : list string) (df : DataFrame)
  : result ColumnTransformer :=
  if (nrows df =? 0)%nat && negb (List.length (num ++ cat) =? 0)%nat then
    Raise (ValueError "Found array with 0 sample(s)")
  else
    nums <- mapM (fun c =>
                    s <- fetch c df ;;
                    vals <- mapM to_float (s_values s) ;;
                    Ok (c, num_fit vals)) num ;;
    cats <- (if negb (List.length cat =? 0)%nat
                && forallb (column_dtype_is bool_ df) cat
             then Raise (ValueError "SimpleImputer does not support data with dtype bool")
             else mapM (fun c =>
                          s <- fetch c df ;;
                          f <- cat_fit hu_ignore (s_values s) ;;
                          Ok (c, f)) cat) ;;
    Ok (mkCT nums cats).

(** ** [IsolationForest] *)

(** The fitted forest and its threshold. *)
Record IsolationForest : Type := mkIF { estimators_ : forest; offset_ : Q }.

(** [IsolationForest(n_estimators=200, contamination="auto",
    random_state=42).fit(X)]; with ["auto"] the threshold is the constant
    [-0.5]. *)
Definition if_fit (X : list (list Q)) : result IsolationForest :=
  match X with
  | [] => Raise (ValueError "Found array with 0 sample(s)")
  | row :: _ =>
      if (List.length row =? 0)%nat then
        Raise (ValueError "Found array with 0 feature(s)")
      else Ok (mkIF (iforest_fit 42 200%nat X) (- (1 # 2))%Q)
  end.

Definition decision_function (m : IsolationForest) (X : list (list Q)) : list Q :=
  map (fun x => Qred (score_samples (estimators_ m) x - offset_ m)) X.

Definition Qltb (x y : Q) : bool := negb (Qle_bool y x).

(** [is_inlier = ones; is_inlier[decision_function(X) < 0] = -1] *)
Definition label (d : Q) : Z := if Qltb d 0 then -1 else 1.

Definition predict (m : IsolationForest) (X : list (list Q)) : list Z :=
  map label (decision_function m X).

(** ** [Pipeline([("preprocess", ...), ("model", ...)])] *)

Record Pipeline : Type := mkPipe {
  preprocess : ColumnTransformer;
  model : IsolationForest
}.

Definition pipe_fit (num cat : list string) (df : DataFrame) : result Pipeline :=
  ct <- ct_fit num cat df ;;
  X <- ct_transform ct df ;;
  m <- if_fit X ;;
  Ok (mkPipe ct m).

Definition pipe_predict (p : Pipeline) (df : DataFrame) : result (list Z) :=
  X <- ct_transform (preprocess p) df ;;
  Ok (predict (model p) X).

End Fit.

End Sklearn.
Import Sklearn.

(* ================================================================== *)
(** * The world of a script: files, MLflow tracking server, clock *)

Module Mlflow.

Inductive run_status : Type := RUNNING | FINISHED | FAILED.

Record Run : Type := mkRun {
  run_id : string;
  experiment_id : nat;
  start_time : Z;
  status : run_status;
  metrics : list (string * Q)
}.

Record Experiment : Type := mkExp { exp_name : string; exp_id : nat }.

Section World.
Context {L : Library}.

(** [files] holds the CSV files by path, each as the frame [read_csv]
    makes of it; [artifacts] holds the logged models by URI; [clock] is the
    time in milliseconds and [entropy] feeds the run identifiers. *)
Record World : Type := mkWorld {
  files : list (string * DataFrame);
  experiments : list Experiment;
  runs : list Run;
  artifacts : list (string * Pipeline);
  clock : Z;
  entropy : nat
}.

Fixpoint lookup {A : Type} (k : string) (l : list (string * A)) : option A :=
  match l with
  | [] => None
  | (k', a) :: l' => if String.eqb k k' then Some a else lookup k l'
  end.

(** [pd.read_csv(path)] *)
Definition read_csv (w : World) (path : string) : result DataFrame :=
  match lookup path (files w) with
  | Some df => Ok df
  | None => Raise (FileNotFoundError path)
  end.

(** [df.to_csv(path, index=False)] *)
Definition to_csv (w : World) (path : string) (df : DataFrame) : World :=
  mkWorld ((path, df) :: files w) (experiments w) (runs w) (artifacts w)
          (clock w) (entropy w).

(** [mlflow.get_experiment_by_name(name)] *)
Definition get_experiment_by_name (w : World) (name : string)
  : option Experiment :=
  find (fun e => String.eqb (exp_name e) name) (experiments w).

(** [mlflow.set_experiment(name)]: the experiment is created when it does
    not exist. *)
Definition set_experiment (w : World) (name : string) : Experiment * World :=
  match get_experiment_by_name w name with
  | Some e => (e, w)
  | None =>
      let e := mkExp name (S (fold_right Nat.max 0%nat (map exp_id (experiments w)))) in
      (e, mkWorld (files w) (experiments w ++ [e]) (runs w) (artifacts w)
                  (clock w) (entropy w))
  end.

Definition fresh_run_id (n : nat) : string :=
  String.append "run-" (NilZero.string_of_uint (Nat.to_uint n)).

(** [mlflow.start_run()] in experiment [e] *)
Definition start_run (w : World) (e : Experiment) : Run * World :=
  let r := mkRun (fresh_run_id (entropy w)) (exp_id e) (clock w) RUNNING [] in
  (r, mkWorld (files w) (experiments w) (runs w ++ [r]) (artifacts w)
              (clock w) (S (entropy w))).

Definition update_run (f : Run -> Run) (id : string) (w : World) : World :=
  mkWorld (files w) (experiments w)
          (map (fun r => if String.eqb (run_id r) id then f r else r) (runs w))
          (artifacts w) (clock w) (entropy w).

(** [mlflow.log_metric(key, value)] in run [id] *)
Definition log_metric (id key : string) (v : Q) (w : World) : World :=
  update_run (fun r => mkRun (run_id r) (experiment_id r) (start_time r)
                             (status r) (metrics r ++ [(key, v)])) id w.

(** Leaving the [with mlflow.start_run()] block *)
Definition end_run (id : string) (st : run_status) (w : World) : World :=
  update_run (fun r => mkRun (run_id r) (experiment_id r) (start_time r)
                             st (metrics r)) id w.

Definition runs_uri (id path : string) : string :=
  String.append "runs:/" (String.append id (String.append "/" path)).

(** [mlflow.sklearn.log_model(pipe, path)] in run [id] *)
Definition log_model (id : string) (p : Pipeline) (path : string) (w : World)
  : World :=
  mkWorld (files w) (experiments w) (runs w)
          ((runs_uri id path, p) :: artifacts w) (clock w) (entropy w).

(** [mlflow.sklearn.load_model(uri)] *)
Definition load_model (w : World) (uri : string) : result Pipeline :=
  match lookup uri (artifacts w) with
  | Some p => Ok p
  | None => Raise (MlflowException "Failed to download artifacts")
  end.

(** [mlflow.search_runs(experiment_ids=ids, order_by=["start_time DESC"],
    max_results=n)] *)
Definition search_runs (w : World) (ids : list nat) (n : nat) : list Run :=
  firstn n
    (sort_by (fun a b => start_time b <=? start_time a)
       (filter (fun r => existsb (Nat.eqb (experiment_id r)) ids) (runs w))).

End World.

End Mlflow.
Import Mlflow.

(* ================================================================== *)
(** * The two scripts *)

Definition EXPERIMENT : string := "traffic_anomaly_detection".

Section Scripts.
Context {L : Library}.

(** ** train_iforest.py *)

Record TrainArgs : Type := mkTrainArgs {
  t_data : string;
  use_date_features : bool
}.

(** Lines 23 to 28: the calendar fields of [crash_date] replace it. *)
Definition date_features (flag : bool) (df : DataFrame) : DataFrame :=
  if flag && has_column "crash_date" df then
    match get_column "crash_date" df with
    | Some s =>
        let dt := to_datetime parse_scalar s in
        let df := set_column "year" (dt_field d_year dt) df in
        let df := set_column "month" (dt_field d_month dt) df in
        let df := set_column "day" (dt_field d_day dt) df in
        drop_columns ["crash_date"] df
    | None => df
    end
  else df.

(** Lines 30 and 31 *)
Definition numeric_columns (df : DataFrame) : list string :=
  select_dtypes [int64; float64] df.

Definition categorical_columns (df : DataFrame) : list string :=
  select_dtypes [object_; bool_] df.

(** What [main] holds when it ends: the run, the fitted pipeline, and the
    labels and scores of the training frame. *)
Record TrainOutcome : Type := mkTrainOutcome {
  t_run : string;
  t_pipe : Pipeline;
  t_preds : list Z;
  t_scores : list Q
}.

(** [float((preds == -1).mean())] *)
Definition anomaly_rate (preds : list Z) : Q :=
  Qred (Qlen (filter (Z.eqb (-1)) preds) / Qlen preds).

(** Lines 60 to 64, inside the run *)
Definition fit_and_check (df : DataFrame)
  : result (Pipeline * list Z * list Q) :=
  pipe <- pipe_fit (numeric_columns df) (categorical_columns df) df ;;
  preds <- pipe_predict pipe df ;;
  X <- ct_transform (preprocess pipe) df ;;
  Ok (pipe, preds, decision_function (model pipe) X).

Definition train_main (args : TrainArgs) (w : World)
  : result TrainOutcome * World :=
  match read_csv w (t_data args) with
  | Raise e => (Raise e, w)
  | Ok df0 =>
      let df := date_features (use_date_features args) df0 in
      let (e, w1) := set_experiment w EXPERIMENT in
      let (run, w2) := start_run w1 e in
      let id := run_id run in
      match fit_and_check df with
      | Raise e => (Raise e, end_run id FAILED w2)
      | Ok (pipe, preds, scores) =>
          let w3 := log_metric id "anomaly_rate" (anomaly_rate preds) w2 in
          let w4 := log_model id pipe "model" w3 in
          (Ok (mkTrainOutcome id pipe preds scores), end_run id FINISHED w4)
      end
  end.

(** ** score_iforest.py *)

Record ScoreArgs : Type := mkScoreArgs {
  s_data : string;
  model_uri : string;
  out : string;
  viz_dir : string
}.

Definition experiment_not_found : exn :=
  ValueError "Experiment 'traffic_anomaly_detection' not found".

Definition no_runs_found : exn :=
  ValueError "No runs found in experiment".

(** Lines 106 to 121: the model URI of the most recent run. *)
Definition resolve_latest (w : World) : result string :=
  match get_experiment_by_name w EXPERIMENT with
  | None => Raise experiment_not_found
  | Some exp =>
      match search_runs w [exp_id exp] 1 with
      | [] => Raise no_runs_found
      | r :: _ => Ok (runs_uri (run_id r) "model")
      end
  end.

Definition resolve_model_uri (uri : string) (w : World) : result string :=
  if String.eqb uri "latest" then resolve_latest w else Ok uri.

(** The labels as an int64 column and the scores as a float64 column. *)
Definition pred_series (preds : list Z) : Series :=
  mkSeries int64 (map VInt preds).

Definition score_series (scores : list Q) : Series :=
  mkSeries float64 (map VFloat scores).

(** Lines 126 to 131: labels, scores, and the frame with both assigned. *)
Definition score_frame (p : Pipeline) (df : DataFrame)
  : result (list Z * list Q * DataFrame) :=
  preds <- pipe_predict p df ;;
  X <- ct_transform (preprocess p) df ;;
  let scores := decision_function (model p) X in
  let df1 := set_column "anomaly_pred" (pred_series preds) df in
  let df2 := set_column "anomaly_score" (score_series scores) df1 in
  Ok (preds, scores, df2).

(** The report is pictures and a text summary under [viz_dir]; none of it
    is a CSV file, a run or an artifact. *)
Definition create_visualizations (df : DataFrame) (dir : string) (w : World)
  : World := w.

Definition score_main (args : ScoreArgs) (w : World)
  : result DataFrame * World :=
  match (uri <- resolve_model_uri (model_uri args) w ;;
         df <- read_csv w (s_data args) ;;
         p <- load_model w uri ;;
         r <- score_frame p df ;;
         Ok (snd r)) with
  | Raise e => (Raise e, w)
  | Ok scored =>
      (Ok scored,
       create_visualizations scored (viz_dir args) (to_csv w (out args) scored))
  end.

End Scripts.

(* ================================================================== *)
(** * A small instance of the outside code

    Enough to run the scripts on examples: ISO dates [YYYY-MM-DD], an
    integer square root on four decimals, and a one-dimensional stand-in
    for the forest whose score falls with the distance of the first
    feature from the centre. *)

Module Sample.

Definition digit (a : ascii) : option Z :=
  let n := Z.of_nat (nat_of_ascii a) in
  if (48 <=? n) && (n <=? 57) then Some (n - 48) else None.

Fixpoint digits (acc : Z) (s : string) : option Z :=
  match s with
  | EmptyString => Some acc
  | String a s' =>
      match digit a with
      | Some d => digits (10 * acc + d) s'
      | None => None
      end
  end.

Definition parse_iso (c : cell) : option date :=
  match c with
  | VStr s =>
      if (String.length s =? 10)%nat then
        match digits 0 (substring 0 4 s), digits 0 (substring 5 2 s),
              digits 0 (substring 8 2 s) with
        | Some y, Some m, Some d =>
            if String.eqb (substring 4 1 s) "-" && String.eqb (substring 7 1 s) "-"
               && (1 <=? m) && (m <=? 12) && (1 <=? d) && (d <=? 31)
            then Some (mkDate y m d) else None
        | _, _, _ => None
        end
      else None
  | _ => None
  end.

Definition sqrt4 (q : Q) : Q :=
  Qred (inject_Z (Z.sqrt (Qnum q * 100000000 / Zpos (Qden q))) / 10000).

Definition centre_score (x : list Q) : Q :=
  match x with
  | [] => (- (1 # 2))%Q
  | a :: _ => Qred (- (1 # 4) - Qabs a / 4)
  end.

#[export] Instance library : Library := {|
  parse_scalar := parse_iso;
  fsqrt := sqrt4;
  forest := unit;
  iforest_fit := fun _ _ _ => tt;
  score_samples := fun _ => centre_score
|}.

End Sample.

(* ================================================================== *)
(** * Vocabulary of the statements *)

Section Statements.
Context {L : Library}.

Definition numeric_dtype (t : dtype) : bool :=
  match t with
  | int64 | float64 | int32 => true
  | object_ | bool_ => false
  end.

(** The cell the date step derives from the [crash_date] cell [c] for the
    calendar field [f]: missing when [c] is missing or does not parse, the
    field of the parsed date otherwise. *)
Definition date_cell (f : date -> Z) (c derived : cell) : Prop :=
  match (match c with NaN => None | _ => parse_scalar c end) with
  | None => derived = NaN
  | Some d => num_of derived = Some (inject_Z (f d))
  end.

Definition date_column (f : date -> Z) (src derived : Series) : Prop :=
  numeric_dtype (s_dtype derived) = true /\
  Forall2 (date_cell f) (s_values src) (s_values derived).






(** Two frames with as many rows and the same cells in the columns [cols] *)
Definition agree_on (cols : list string) (df1 df2 : DataFrame) : Prop :=
  nrows df1 = nrows df2 /\
  forall c, In c cols ->
            option_map s_values (get_column c df1) =
            option_map s_values (get_column c df2).

Definition labels_and_scores (r : result (list Z * list Q * DataFrame))
  : result (list Z * list Q) :=
  match r with
  | Ok (preds, scores, _) => Ok (preds, scores)
  | Raise e => Raise e
  end.

(** Every column of the input outside the schema is in the output as it
    was in the input. *)
Definition extras_carried (cols : list string) (df scored : DataFrame) : Prop :=
  forall c, ~ In c cols -> has_column c df = true ->
            get_column c scored = get_column c df.

(** The errors of the input side of scoring: what reading the file or
    applying the pipeline to the frame can raise. *)
Definition input_error (e : exn) : Prop :=
  (exists w path, read_csv w path = Raise e) \/
  (exists p df, score_frame p df = Raise e).

(** The run [r] of experiment [e] started after every other run of it. *)
Definition started_last (w : World) (e : Experiment) (r : Run) : Prop :=
  In r (runs w) /\ experiment_id r = exp_id e /\
  forall r', In r' (runs w) -> experiment_id r' = exp_id e ->
             start_time r <= start_time r' -> r' = r.

(** Two training runs with the same fitted pipeline, labels and scores,
    or the same exception. *)
Definition same_fit (r1 r2 : result TrainOutcome) : Prop :=
  match r1, r2 with
  | Ok o1, Ok o2 =>
      t_pipe o1 = t_pipe o2 /\ t_preds o1 = t_preds o2 /\
      t_scores o1 = t_scores o2
  | Raise e1, Raise e2 => e1 = e2
  | _, _ => False
  end.

End Statements.

(* ================================================================== *)
(** * Example data *)

Module Example.
Import Sample.

(** Every date parses. *)
Definition clean_dates : DataFrame :=
  [("crash_date", mkSeries object_ [VStr "2021-03-04"; VStr "2022-11-30"]);
   ("speed", mkSeries int64 [VInt 30; VInt 50])].

(** The second record has no date. *)
Definition gap_dates : DataFrame :=
  [("crash_date", mkSeries object_ [VStr "2021-03-04"; NaN; VStr "2022-11-30"]);
   ("speed", mkSeries int64 [VInt 30; VInt 50; VInt 130]);
   ("weather", mkSeries object_ [VStr "rain"; VStr "clear"; VStr "rain"])].

(** A frame without dates. *)
Definition plain : DataFrame :=
  [("speed", mkSeries int64 [VInt 30; VInt 50; VInt 130]);
   ("weather", mkSeries object_ [VStr "rain"; VStr "clear"; VStr "rain"])].

Definition world_of (df : DataFrame) : World :=
  mkWorld [("traffic_accidents.csv", df)] [] [] [] 1000 0.

(** The two tasks of the DAG, on the same file. *)
Definition dag_train : TrainArgs := mkTrainArgs "traffic_accidents.csv" true.

Definition dag_score : ScoreArgs :=
  mkScoreArgs "traffic_accidents.csv" "latest" "scored_output.csv" "visualizations".

End Example.

Module Example2.
Import Sample.

(** A held-out file without the weather column, and one with a weather
    value the training file does not have. *)
Definition no_weather : DataFrame :=
  [("speed", mkSeries int64 [VInt 40; VInt 60])].

Definition new_weather : DataFrame :=
  [("speed", mkSeries int64 [VInt 40; VInt 60]);
   ("weather", mkSeries object_ [VStr "snow"; VStr "rain"])].

(** The world after the training task ran on [Example.plain], with a
    second file to score. *)
Definition trained_with (df : DataFrame) : World :=
  snd (train_main (mkTrainArgs "traffic_accidents.csv" false)
         (mkWorld [("traffic_accidents.csv", Example.plain); ("held_out.csv", df)]
                  [] [] [] 1000 0)).

Definition score_held_out : ScoreArgs :=
  mkScoreArgs "held_out.csv" "latest" "scored_output.csv" "visualizations".

(** Two fast records. *)
Definition fast : DataFrame :=
  [("speed", mkSeries int64 [VInt 200; VInt 300]);
   ("weather", mkSeries object_ [VStr "rain"; VStr "rain"])].

(** [new_weather] with its columns in another order and a column the
    pipeline does not know. *)
Definition new_weather_reordered : DataFrame :=
  [("note", mkSeries object_ [VStr "night"; NaN]);
   ("weather", mkSeries object_ [VStr "snow"; VStr "rain"]);
   ("speed", mkSeries int64 [VInt 40; VInt 60])].

(** A file that was scored before. *)
Definition scored_before : DataFrame :=
  [("speed", mkSeries int64 [VInt 40; VInt 60]);
   ("weather", mkSeries object_ [VStr "clear"; VStr "rain"]);
   ("anomaly_pred", mkSeries int64 [VInt 1; VInt 1]);
   ("anomaly_score", mkSeries float64 [VFloat (1 # 10); VFloat (1 # 5)])].

(** What the scoring task writes for [new_weather]. *)
Definition scored_new_weather : DataFrame :=
  match fst (score_main score_held_out (trained_with new_weather)) with
  | Ok scored => scored
  | Raise _ => []
  end.

(** The pipeline the training task fits on [Example.plain]. *)
Definition plain_pipe : Pipeline :=
  mkPipe
    (mkCT [("speed", Some (50%Q, mkScaler 70%Q (432049 # 10000)))]
          [("weather",
            Some (mkOneHot (VStr "rain") [VStr "clear"; VStr "rain"] hu_ignore))])
    (mkIF tt (- (1 # 2))%Q).

End Example2.

Module Example3.
Import Sample.

Definition experiment : Experiment := mkExp "traffic_anomaly_detection" 1.

Definition older : Run := mkRun "a" 1 1000 FINISHED [].
Definition newer : Run := mkRun "b" 1 2000 FINISHED [].

(** The registry with the newer run stored first, and with it stored
    last. *)
Definition newer_first : World :=
  mkWorld [] [experiment] [newer; older] [] 3000 2.

Definition newer_last : World :=
  mkWorld [] [experiment] [older; newer] [] 3000 2.

Definition nothing_trained : World := mkWorld [] [] [] [] 3000 0.

End Example3.

(* ================================================================== *)
(** * The report of the scoring script

    The values [create_visualizations] computes from the scored frame
    before it draws them; [None] stands for the [KeyError] of a frame
    without the two result columns. *)

Module Report.

(** [series == z], cell by cell *)
Definition eq_mask (z : Z) (s : Series) : list bool :=
  map (fun c => py_eqb c (VInt z)) (s_values s).

(** [mask.sum()] *)
Definition mask_sum (m : list bool) : nat :=
  List.length (filter (fun b => b) m).

(** [values[mask]] *)
Fixpoint select {A : Type} (m : list bool) (l : list A) : list A :=
  match m, l with
  | b :: m', x :: l' => if b then x :: select m' l' else select m' l'
  | _, _ => []
  end.

(** Lines 21 and 22: [df[df["anomaly_pred"] == z]["anomaly_score"]] *)
Definition scores_labelled (z : Z) (df : DataFrame) : option (list cell) :=
  match get_column "anomaly_pred" df, get_column "anomaly_score" df with
  | Some p, Some s => Some (select (eq_mask z p) (s_values s))
  | _, _ => None
  end.

(** [nsmallest(n)] on a numeric column, as values: ascending, the missing
    ones last, and the first [n] of that. *)
Definition nsmallest (n : nat) (cells : list cell) : list (option Q) :=
  let vals := map num_of cells in
  firstn n (map Some (sort_by Qle_bool (present vals))
            ++ filter (fun o => negb (is_some o)) vals).

(** Line 44: the scores of the bars of the third chart *)
Definition top_anomalies (df : DataFrame) : option (list (option Q)) :=
  option_map (nsmallest 20) (scores_labelled (-1) df).

(** [series.value_counts()]: the values that are not missing, each with
    its number of occurrences, the most frequent first. *)
Definition value_counts (s : Series) : list (cell * nat) :=
  let vals := filter (fun c => negb (is_nan c)) (s_values s) in
  sort_by (fun a b => (snd b <=? snd a)%nat)
          (map (fun v => (v, count_of v vals)) (dedup_by py_eqb vals)).

(** Lines 33 to 36: the slices of the pie chart. The labels follow the
    values, the colours follow the positions. *)
Record Slice : Type := mkSlice {
  slice_label : string;
  slice_size : nat;
  slice_color : string
}.

Definition pie_label (v : cell) : string :=
  if py_eqb v (VInt 1) then "Normal" else "Anomaly".

Definition pie_colors : list string := ["#90EE90"; "#FF6B6B"].

Definition pie (df : DataFrame) : option (list Slice) :=
  option_map
    (fun p =>
       let vc := value_counts p in
       map (fun iv => mkSlice (pie_label (fst (snd iv))) (snd (snd iv))
                              (nth (fst iv mod 2) pie_colors ""))
           (combine (seq 0 (List.length vc)) vc))
    (get_column "anomaly_pred" df).

(** Line 56: whether the trend chart is drawn *)
Definition has_trend (df : DataFrame) : bool :=
  has_column "year" df && has_column "month" df.

(** Lines 75 to 77 *)
Definition total_records (df : DataFrame) : nat := nrows df.

Definition normal_records (df : DataFrame) : option nat :=
  option_map (fun p => mask_sum (eq_mask 1 p)) (get_column "anomaly_pred" df).

Definition anomalies_detected (df : DataFrame) : option nat :=
  option_map (fun p => mask_sum (eq_mask (-1) p)) (get_column "anomaly_pred" df).

End Report.

(* ================================================================== *)
(** * dag_anomaly_mlflow.py

    The two tasks with the arguments of their commands, each tried again
    once after a minute when it fails, the second only after the first
    succeeded. Installing the requirements is taken to succeed. *)

Module Dag.

Definition BASE_DIR : string := "/opt/airflow/dags".

Definition DATA_PATH : string := String.append BASE_DIR "/traffic_accidents.csv".

Definition SCORED_PATH : string := String.append BASE_DIR "/scored_output.csv".

Definition retries : nat := 1.

(** [dt.timedelta(minutes=1)], in milliseconds *)
Definition retry_delay : Z := 60000.

Section Tasks.
Context {L : Library}.

Definition train_model : World -> result TrainOutcome * World :=
  train_main (mkTrainArgs DATA_PATH true).

Definition score_model : World -> result DataFrame * World :=
  score_main (mkScoreArgs DATA_PATH "latest" SCORED_PATH
                          "/opt/airflow/dags/visualizations").

Definition sleep (ms : Z) (w : World) : World :=
  mkWorld (files w) (experiments w) (runs w) (artifacts w)
          (clock w + ms) (entropy w).

Fixpoint run_task {A : Type} (retries_left : nat)
         (task : World -> result A * World) (w : World) : result A * World :=
  match task w with
  | (Ok a, w') => (Ok a, w')
  | (Raise e, w') =>
      match retries_left with
      | O => (Raise e, w')
      | S n => run_task n task (sleep retry_delay w')
      end
  end.

Inductive outcome : Type :=
| TrainFailed (e : exn)
| ScoreFailed (e : exn)
| Succeeded (o : TrainOutcome) (scored : DataFrame).

(** [train_model >> score_model] *)
Definition dag_run (w : World) : outcome * World :=
  match run_task retries train_model w with
  | (Raise e, w1) => (TrainFailed e, w1)
  | (Ok o, w1) =>
      match run_task retries score_model w1 with
      | (Raise e, w2) => (ScoreFailed e, w2)
      | (Ok scored, w2) => (Succeeded o scored, w2)
      end
  end.

End Tasks.

End Dag.

(* ================================================================== *)
(** * Further vocabulary *)

Section Statements2.
Context {L : Library}.

(** Every column has as many cells as the frame has rows. *)
Definition equal_lengths (df : DataFrame) : Prop :=
  forall c s, In (c, s) df -> List.length (s_values s) = nrows df.

(** The frame has a [crash_date] column and each of its cells parses. *)
Definition dates_parse (df : DataFrame) : Prop :=
  exists src,
    get_column "crash_date" df = Some src /\
    Forall (fun v => is_nan v = false /\ parse_scalar v <> None) (s_values src).

(** Every registered run started before now. *)
Definition registry_older (w : World) : Prop :=
  forall r, In r (runs w) -> start_time r < clock w.

(** The identifier of the next run is not the identifier of a registered
    run. *)
Definition next_id_fresh (w : World) : Prop :=
  forall r, In r (runs w) -> run_id r <> fresh_run_id (entropy w).

(** The run a training attempt registers *)
Definition new_run (w : World) (e : Experiment) (st : run_status)
           (ms : list (string * Q)) : Run :=
  mkRun (fresh_run_id (entropy w)) (exp_id e) (clock w) st ms.

End Statements2.

Module Example4.
Import Sample.

(** A file with nothing but dates, all of which parse. *)
Definition only_dates : DataFrame :=
  [("crash_date", mkSeries object_ [VStr "2021-03-04"; VStr "2022-11-30"])].

(** A registry that holds an older, finished run and its model. *)
Definition with_history (df : DataFrame) : World :=
  mkWorld [("traffic_accidents.csv", df)]
          [Example3.experiment] [Example3.older]
          [("runs:/a/model", Example2.plain_pipe)] 5000 7.

(** What training on [Example.plain] returns in that registry. *)
Definition plain_outcome : TrainOutcome :=
  match fst (train_main Example.dag_train (with_history Example.plain)) with
  | Ok o => o
  | Raise _ => mkTrainOutcome "" Example2.plain_pipe [] []
  end.


(** The file of the DAG. *)
Definition dag_world (df : DataFrame) : World :=
  mkWorld [(Dag.DATA_PATH, df)] [] [] [] 1000 0.

(** What the training task of the DAG returns on a file. *)
Definition dag_outcome (df : DataFrame) : TrainOutcome :=
  match fst (Dag.train_model (dag_world df)) with
  | Ok o => o
  | Raise _ => mkTrainOutcome "" Example2.plain_pipe [] []
  end.

End Example4.

(* ================================================================== *)
(** * Facts about frames *)

Lemma has_column_get (c : string) (df : DataFrame) :
  has_column c df = is_some (get_column c df).
Proof.
  unfold has_column, columns.
  induction df as [|[n s] df IH]; simpl; [reflexivity|].
  destruct (String.eqb c n); simpl; [reflexivity | exact IH].
Qed.

Lemma has_column_In (c : string) (df : DataFrame) :
  has_column c df = true <-> In c (columns df).
Proof.
  unfold has_column. rewrite existsb_exists. split.
  - intros [x [Hin Heq]]. apply String.eqb_eq in Heq. now subst.
  - intros Hin. exists c. split; [exact Hin | apply String.eqb_refl].
Qed.

Lemma get_replace_same (c : string) (s : Series) (df : DataFrame) :
  has_column c df = true -> get_column c (replace_column c s df) = Some s.
Proof.
  unfold has_column, columns.
  induction df as [|[n s'] df IH]; simpl; [discriminate|].
  destruct (String.eqb c n) eqn:E; simpl; rewrite E; [reflexivity | exact IH].
Qed.

Lemma get_replace_other (c k : string) (s : Series) (df : DataFrame) :
  c <> k -> get_column c (replace_column k s df) = get_column c df.
Proof.
  intros Hne. induction df as [|[n s'] df IH]; simpl; [reflexivity|].
  destruct (String.eqb k n) eqn:E; simpl.
  - apply String.eqb_eq in E. subst n.
    apply String.eqb_neq in Hne. now rewrite Hne.
  - destruct (String.eqb c n); [reflexivity | exact IH].
Qed.

Lemma get_app (c : string) (df1 df2 : DataFrame) :
  get_column c (df1 ++ df2) =
  match get_column c df1 with Some s => Some s | None => get_column c df2 end.
Proof.
  induction df1 as [|[n s] df1 IH]; simpl; [reflexivity|].
  destruct (String.eqb c n); [reflexivity | exact IH].
Qed.

Lemma get_set_same (c : string) (s : Series) (df : DataFrame) :
  get_column c (set_column c s df) = Some s.
Proof.
  unfold set_column. destruct (has_column c df) eqn:E.
  - now apply get_replace_same.
  - rewrite get_app. rewrite has_column_get in E.
    destruct (get_column c df); [discriminate|].
    simpl. now rewrite String.eqb_refl.
Qed.

Lemma get_set_other (c k : string) (s : Series) (df : DataFrame) :
  c <> k -> get_column c (set_column k s df) = get_column c df.
Proof.
  intros Hne. unfold set_column. destruct (has_column k df).
  - now apply get_replace_other.
  - rewrite get_app. destruct (get_column c df); [reflexivity|].
    simpl. apply String.eqb_neq in Hne. now rewrite Hne.
Qed.

Lemma get_drop_other (c : string) (cs : list string) (df : DataFrame) :
  existsb (String.eqb c) cs = false ->
  get_column c (drop_columns cs df) = get_column c df.
Proof.
  intros Hc. unfold drop_columns.
  induction df as [|[n s] df IH]; simpl; [reflexivity|].
  destruct (existsb (String.eqb n) cs) eqn:En; simpl.
  - destruct (String.eqb c n) eqn:E; [|exact IH].
    apply String.eqb_eq in E. subst n. congruence.
  - destruct (String.eqb c n); [reflexivity | exact IH].
Qed.

Lemma has_drop (c : string) (cs : list string) (df : DataFrame) :
  existsb (String.eqb c) cs = true -> has_column c (drop_columns cs df) = false.
Proof.
  intros Hc. rewrite has_column_get. unfold drop_columns.
  induction df as [|[n s] df IH]; simpl; [reflexivity|].
  destruct (existsb (String.eqb n) cs) eqn:En; simpl; [exact IH|].
  destruct (String.eqb c n) eqn:E; [|exact IH].
  apply String.eqb_eq in E. subst n. congruence.
Qed.

Lemma columns_replace (c : string) (s : Series) (df : DataFrame) :
  columns (replace_column c s df) = columns df.
Proof.
  unfold columns. induction df as [|[n s'] df IH]; simpl; [reflexivity|].
  destruct (String.eqb c n); simpl; [reflexivity | now rewrite IH].
Qed.

Lemma set_column_fresh (c : string) (s : Series) (df : DataFrame) :
  has_column c df = false -> set_column c s df = df ++ [(c, s)].
Proof. intros H. unfold set_column. now rewrite H. Qed.

Lemma has_column_app (c : string) (df1 df2 : DataFrame) :
  has_column c (df1 ++ df2) = has_column c df1 || has_column c df2.
Proof. unfold has_column, columns. now rewrite map_app, existsb_app. Qed.

Lemma drop_columns_app (cs : list string) (df1 df2 : DataFrame) :
  drop_columns cs (df1 ++ df2) = drop_columns cs df1 ++ drop_columns cs df2.
Proof. unfold drop_columns. apply filter_app. Qed.

(* ================================================================== *)
(** * Date expansion *)

Section DateExpansion.
Context {L : Library}.

Lemma dt_field_date_column (f : date -> Z) (src : Series) :
  date_column f src (dt_field f (to_datetime parse_scalar src)).
Proof.
  unfold date_column, dt_field, to_datetime.
  destruct (forallb _ _); simpl; (split; [reflexivity|]);
    induction (s_values src) as [|c cs IH]; simpl; constructor; try exact IH;
    unfold date_cell; destruct c; simpl; try reflexivity;
    match goal with |- context [parse_scalar ?x] => destruct (parse_scalar x) end;
    reflexivity.
Qed.

Lemma date_features_off (flag : bool) (df : DataFrame) :
  flag = false \/ has_column "crash_date" df = false ->
  date_features flag df = df.
Proof.
  unfold date_features. intros [-> | ->]; [reflexivity|].
  now rewrite andb_false_r.
Qed.

Lemma date_features_on (df : DataFrame) (src : Series) :
  get_column "crash_date" df = Some src ->
  date_features true df =
  drop_columns ["crash_date"]
    (set_column "day" (dt_field d_day (to_datetime parse_scalar src))
       (set_column "month" (dt_field d_month (to_datetime parse_scalar src))
          (set_column "year" (dt_field d_year (to_datetime parse_scalar src)) df))).
Proof.
  intros H. unfold date_features. rewrite has_column_get, H. reflexivity.
Qed.

(** C8. When date features are enabled and [crash_date] is present, the
    result holds three numeric columns year, month and day whose cells are
    the fields of the parsed date, missing where the cell is missing or
    does not parse; [crash_date] is gone and every other column is as it
    was; on a frame without columns of these names the three are appended
    after the remaining columns. When the flag is off or the column is
    absent the frame is returned as it is. *)
Theorem C8_date_expansion (flag : bool) (df : DataFrame) :
  (flag = true -> has_column "crash_date" df = true ->
   exists src y m d,
     get_column "crash_date" df = Some src /\
     get_column "year" (date_features flag df) = Some y /\
     get_column "month" (date_features flag df) = Some m /\
     get_column "day" (date_features flag df) = Some d /\
     date_column d_year src y /\
     date_column d_month src m /\
     date_column d_day src d /\
     has_column "crash_date" (date_features flag df) = false /\
     (forall c, c <> "crash_date" -> c <> "year" -> c <> "month" -> c <> "day" ->
                get_column c (date_features flag df) = get_column c df) /\
     (has_column "year" df = false -> has_column "month" df = false ->
      has_column "day" df = false ->
      date_features flag df =
      drop_columns ["crash_date"] df ++ [("year", y); ("month", m); ("day", d)]))
  /\
  (flag = false \/ has_column "crash_date" df = false ->
   date_features flag df = df).
Proof.
  split; [|apply date_features_off].
  intros -> Hhas.
  rewrite has_column_get in Hhas.
  destruct (get_column "crash_date" df) as [src|] eqn:Hsrc; [|discriminate].
  rewrite (date_features_on df src Hsrc).
  set (dt := to_datetime parse_scalar src).
  exists src, (dt_field d_year dt), (dt_field d_month dt), (dt_field d_day dt).
  split; [reflexivity|].
  split.
  { rewrite get_drop_other by reflexivity.
    rewrite get_set_other by discriminate.
    rewrite get_set_other by discriminate.
    apply get_set_same. }
  split.
  { rewrite get_drop_other by reflexivity.
    rewrite get_set_other by discriminate.
    apply get_set_same. }
  split.
  { rewrite get_drop_other by reflexivity. apply get_set_same. }
  split; [apply dt_field_date_column|].
  split; [apply dt_field_date_column|].
  split; [apply dt_field_date_column|].
  split; [now apply has_drop|].
  split.
  { intros c Hc Hy Hm Hd.
    rewrite get_drop_other.
    - now rewrite !get_set_other.
    - simpl. apply String.eqb_neq in Hc. now rewrite Hc. }
  intros Hy Hm Hd.
  rewrite (set_column_fresh "year") by exact Hy.
  rewrite (set_column_fresh "month")
    by (rewrite has_column_app, Hm; reflexivity).
  rewrite (set_column_fresh "day")
    by (rewrite !has_column_app, Hd; reflexivity).
  rewrite <- !app_assoc. simpl.
  rewrite drop_columns_app. reflexivity.
Qed.

End DateExpansion.

(* ================================================================== *)
(** * Frames with distinct column names *)

Lemma NoDup_columns_set (c : string) (s : Series) (df : DataFrame) :
  NoDup (columns df) -> NoDup (columns (set_column c s df)).
Proof.
  intros Hnd. unfold set_column. destruct (has_column c df) eqn:E.
  - now rewrite columns_replace.
  - unfold columns. rewrite map_app. simpl.
    apply NoDup_app; [exact Hnd | repeat constructor; intros [] | ].
    intros x Hx [<-|[]].
    apply has_column_In in Hx. congruence.
Qed.

Lemma NoDup_columns_drop (cs : list string) (df : DataFrame) :
  NoDup (columns df) -> NoDup (columns (drop_columns cs df)).
Proof.
  unfold columns, drop_columns.
  induction df as [|[n s] df IH]; simpl; intros Hnd; [constructor|].
  inversion Hnd as [|? ? Hn Hnd']; subst.
  destruct (existsb (String.eqb n) cs); simpl; [now apply IH|].
  constructor; [|now apply IH].
  intros Hin. apply Hn. apply in_map_iff in Hin.
  destruct Hin as [[n' s'] [Heq Hin]]. simpl in Heq. subst n'.
  apply filter_In in Hin. apply in_map_iff. exists (n, s'). tauto.
Qed.

Lemma In_get_column (c : string) (s : Series) (df : DataFrame) :
  NoDup (columns df) -> In (c, s) df -> get_column c df = Some s.
Proof.
  unfold columns.
  induction df as [|[n s'] df IH]; simpl; intros Hnd Hin; [contradiction|].
  inversion Hnd as [|? ? Hn Hnd']; subst.
  destruct Hin as [Heq | Hin].
  - inversion Heq; subst. now rewrite String.eqb_refl.
  - destruct (String.eqb c n) eqn:E.
    + apply String.eqb_eq in E. subst n. exfalso. apply Hn.
      apply in_map_iff. now exists (c, s).
    + now apply IH.
Qed.

Lemma get_column_In (c : string) (s : Series) (df : DataFrame) :
  get_column c df = Some s -> In (c, s) df.
Proof.
  induction df as [|[n s'] df IH]; simpl; [discriminate|].
  destruct (String.eqb c n) eqn:E.
  - intros H. inversion H; subst. apply String.eqb_eq in E. subst. now left.
  - intros H. right. now apply IH.
Qed.

Lemma select_dtypes_In (incl : list dtype) (c : string) (df : DataFrame) :
  In c (select_dtypes incl df) <->
  exists s, In (c, s) df /\ existsb (dtype_eqb (s_dtype s)) incl = true.
Proof.
  unfold select_dtypes, columns. rewrite in_map_iff. split.
  - intros [[n s] [Heq Hin]]. simpl in Heq. subst n.
    apply filter_In in Hin. exists s. exact Hin.
  - intros [s [Hin Hd]]. exists (c, s). split; [reflexivity|].
    apply filter_In. split; assumption.
Qed.

Lemma select_dtypes_get (incl : list dtype) (c : string) (s : Series)
      (df : DataFrame) :
  NoDup (columns df) -> get_column c df = Some s ->
  (In c (select_dtypes incl df) <->
   existsb (dtype_eqb (s_dtype s)) incl = true).
Proof.
  intros Hnd Hget. rewrite select_dtypes_In. split.
  - intros [s' [Hin Hd]].
    rewrite (In_get_column c s' df Hnd Hin) in Hget. now inversion Hget; subst.
  - intros Hd. exists s. split; [now apply get_column_In | exact Hd].
Qed.

Lemma select_dtypes_columns (incl : list dtype) (c : string) (df : DataFrame) :
  In c (select_dtypes incl df) -> In c (columns df).
Proof.
  intros H. apply select_dtypes_In in H. destruct H as [s [Hin _]].
  unfold columns. apply in_map_iff. now exists (c, s).
Qed.

(** The two selections of the training script never share a column, and
    every column of the four dtypes that [read_csv] infers is in one of
    them. *)
Lemma numeric_categorical_disjoint (df : DataFrame) (c : string) :
  NoDup (columns df) ->
  In c (numeric_columns df) -> In c (categorical_columns df) -> False.
Proof.
  intros Hnd Hn Hc.
  unfold numeric_columns in Hn. unfold categorical_columns in Hc.
  apply select_dtypes_In in Hn. destruct Hn as [s [Hin Hd]].
  rewrite (select_dtypes_get _ c s df Hnd (In_get_column c s df Hnd Hin)) in Hc.
  destruct (s_dtype s); discriminate.
Qed.

Lemma csv_dtypes_classified (df : DataFrame) (c : string) (s : Series) :
  In (c, s) df -> s_dtype s <> int32 ->
  In c (numeric_columns df) \/ In c (categorical_columns df).
Proof.
  intros Hin Hd. unfold numeric_columns, categorical_columns.
  rewrite !select_dtypes_In.
  destruct (s_dtype s) eqn:E; try congruence;
    [left | left | right | right]; exists s; rewrite E; split; auto.
Qed.

(* ================================================================== *)
(** * Facts about results *)

Lemma bind_Ok {A B : Type} (r : result A) (k : A -> result B) (b : B) :
  Py.bind r k = Ok b -> exists a, r = Ok a /\ k a = Ok b.
Proof. destruct r as [a|e]; simpl; [eauto | discriminate]. Qed.

Lemma bind_Raise {A B : Type} (r : result A) (k : A -> result B) (e : exn) :
  Py.bind r k = Raise e -> r = Raise e \/ exists a, r = Ok a /\ k a = Raise e.
Proof.
  destruct r as [a|e']; simpl; [eauto|].
  intros H. left. inversion H. reflexivity.
Qed.

Ltac inv_bind H :=
  let a := fresh "a" in
  let Ha := fresh "Ha" in
  apply bind_Ok in H; destruct H as [a [Ha H]].

Lemma mapM_Forall2 {A B : Type} (f : A -> result B) (l : list A) (r : list B) :
  mapM f l = Ok r -> Forall2 (fun a b => f a = Ok b) l r.
Proof.
  revert r. induction l as [|a l IH]; simpl; intros r H.
  - inversion H. constructor.
  - inv_bind H. inv_bind H. inversion H; subst. constructor; auto.
Qed.

Lemma Forall2_mapM {A B : Type} (f : A -> result B) (l : list A) (r : list B) :
  Forall2 (fun a b => f a = Ok b) l r -> mapM f l = Ok r.
Proof.
  induction 1 as [|a b l r Hab _ IH]; simpl; [reflexivity|].
  now rewrite Hab, IH.
Qed.

Lemma mapM_ext_in {A B : Type} (f g : A -> result B) (l : list A) :
  (forall a, In a l -> f a = g a) -> mapM f l = mapM g l.
Proof.
  induction l as [|a l IH]; simpl; intros H; [reflexivity|].
  rewrite (H a) by now left.
  rewrite IH by (intros; apply H; now right). reflexivity.
Qed.


Lemma mapM_length {A B : Type} (f : A -> result B) (l : list A) (r : list B) :
  mapM f l = Ok r -> List.length r = List.length l.
Proof.
  intros H. apply mapM_Forall2 in H. symmetry. eapply Forall2_length; eauto.
Qed.

Lemma mapM_Raise {A B : Type} (f : A -> result B) (l : list A) (e : exn) :
  mapM f l = Raise e -> exists a, In a l /\ f a = Raise e.
Proof.
  induction l as [|a l IH]; simpl; [discriminate|].
  intros H. apply bind_Raise in H. destruct H as [H | [b [Hb H]]].
  - exists a. auto.
  - apply bind_Raise in H. destruct H as [H | [bs [_ H]]]; [|discriminate].
    destruct (IH H) as [a' [Hin Ha']]. exists a'. auto.
Qed.

(* ================================================================== *)
(** * What fitting records *)

Section FitFacts.
Context {L : Library}.

Lemma ct_fit_parts (num cat : list string) (df : DataFrame)
      (ct : ColumnTransformer) :
  ct_fit num cat df = Ok ct ->
  num_cols ct = num /\ cat_cols ct = cat /\
  Forall (fun cf => forall e, snd cf = Some e -> unknown e = hu_ignore)
         (cat_part ct).
Proof.
  unfold ct_fit. destruct (_ && _); [discriminate|].
  intros H. inv_bind H. inv_bind H. inversion H; subst ct; clear H.
  unfold num_cols, cat_cols; simpl.
  apply mapM_Forall2 in Ha.
  destruct (negb _ && forallb _ _); [discriminate|].
  apply mapM_Forall2 in Ha0.
  split; [|split].
  - induction Ha as [|c x l r Hx _ IH]; simpl; [reflexivity|].
    f_equal; [|exact IH].
    inv_bind Hx. inv_bind Hx. now inversion Hx.
  - induction Ha0 as [|c x l r Hx _ IH]; simpl; [reflexivity|].
    f_equal; [|exact IH].
    inv_bind Hx. inv_bind Hx. now inversion Hx.
  - induction Ha0 as [|c x l r Hx _ IH]; constructor; [|exact IH].
    apply bind_Ok in Hx. destruct Hx as [s [_ Hx]].
    apply bind_Ok in Hx. destruct Hx as [f [Hf Hx]].
    inversion Hx as [Hx']. simpl.
    unfold cat_fit in Hf. destruct (uniform_kind _); [|discriminate].
    destruct (most_frequent _); inversion Hf; intros e He;
      inversion He; reflexivity.
Qed.

Lemma pipe_fit_schema (num cat : list string) (df : DataFrame) (p : Pipeline) :
  pipe_fit num cat df = Ok p -> schema (preprocess p) = num ++ cat.
Proof.
  unfold pipe_fit. intros H. inv_bind H. inv_bind H. inv_bind H.
  inversion H; subst p; simpl.
  destruct (ct_fit_parts _ _ _ _ Ha) as [Hn [Hc _]].
  unfold schema. now rewrite Hn, Hc.
Qed.

End FitFacts.

(* ================================================================== *)
(** * Schema partition *)

Section SchemaPartition.
Context {L : Library}.

Lemma all_parsed (src : Series) :
  Forall (fun c => is_nan c = false /\ parse_scalar c <> None) (s_values src) ->
  forallb is_some (to_datetime parse_scalar src) = true.
Proof.
  unfold to_datetime. induction 1 as [|c cs [Hn Hp] _ IH]; simpl; [reflexivity|].
  rewrite IH, andb_true_r.
  destruct c; try discriminate; destruct (parse_scalar _); simpl; congruence.
Qed.

(** C9. On a frame whose [crash_date] cells all parse, the three derived
    columns year, month and day have dtype int32: they are columns of the
    frame after date handling and belong neither to the numeric nor to the
    categorical selection, so a pipeline fitted on that frame has none of
    them in its schema. *)
Theorem C9_date_fields_left_out (df : DataFrame) (src : Series) (c : string) :
  NoDup (columns df) ->
  get_column "crash_date" df = Some src ->
  Forall (fun v => is_nan v = false /\ parse_scalar v <> None) (s_values src) ->
  In c ["year"; "month"; "day"] ->
  In c (columns (date_features true df)) /\
  ~ In c (numeric_columns (date_features true df)) /\
  ~ In c (categorical_columns (date_features true df)) /\
  forall p,
    pipe_fit (numeric_columns (date_features true df))
             (categorical_columns (date_features true df))
             (date_features true df) = Ok p ->
    ~ In c (schema (preprocess p)).
Proof.
  intros Hnd Hsrc Hall Hc.
  assert (Hnd' : NoDup (columns (date_features true df))).
  { rewrite (date_features_on df src Hsrc).
    apply NoDup_columns_drop. now repeat apply NoDup_columns_set. }
  assert (Hget : exists s, get_column c (date_features true df) = Some s /\
                           s_dtype s = int32).
  { rewrite (date_features_on df src Hsrc).
    pose proof (all_parsed src Hall) as Hp.
    destruct Hc as [<-|[<-|[<-|[]]]];
      rewrite get_drop_other by reflexivity.
    - exists (dt_field d_year (to_datetime parse_scalar src)).
      rewrite get_set_other by discriminate.
      rewrite get_set_other by discriminate.
      rewrite get_set_same. unfold dt_field. now rewrite Hp.
    - exists (dt_field d_month (to_datetime parse_scalar src)).
      rewrite get_set_other by discriminate.
      rewrite get_set_same. unfold dt_field. now rewrite Hp.
    - exists (dt_field d_day (to_datetime parse_scalar src)).
      rewrite get_set_same. unfold dt_field. now rewrite Hp. }
  destruct Hget as [s [Hget Hdt]].
  assert (Hnum : ~ In c (numeric_columns (date_features true df))).
  { unfold numeric_columns. rewrite (select_dtypes_get _ c s _ Hnd' Hget).
    rewrite Hdt. discriminate. }
  assert (Hcat : ~ In c (categorical_columns (date_features true df))).
  { unfold categorical_columns. rewrite (select_dtypes_get _ c s _ Hnd' Hget).
    rewrite Hdt. discriminate. }
  split; [|split; [exact Hnum | split; [exact Hcat|]]].
  - apply has_column_In. rewrite has_column_get, Hget. reflexivity.
  - intros p Hfit. rewrite (pipe_fit_schema _ _ _ _ Hfit).
    intros Hin. apply in_app_or in Hin. tauto.
Qed.

End SchemaPartition.

Lemma C9_date_fields_left_out_witness :
  In "year" (columns (date_features (L := Sample.library) true Example.clean_dates)) /\
  ~ In "year" (numeric_columns (date_features (L := Sample.library) true Example.clean_dates)) /\
  ~ In "year" (categorical_columns (date_features (L := Sample.library) true Example.clean_dates)) /\
  forall p,
    pipe_fit (L := Sample.library)
      (numeric_columns (date_features (L := Sample.library) true Example.clean_dates))
      (categorical_columns (date_features (L := Sample.library) true Example.clean_dates))
      (date_features (L := Sample.library) true Example.clean_dates) = Ok p ->
    ~ In "year" (schema (preprocess p)).
Proof.
  apply (C9_date_fields_left_out (L := Sample.library) Example.clean_dates
           (mkSeries object_ [VStr "2021-03-04"; VStr "2022-11-30"]) "year").
  - repeat constructor; simpl; intuition discriminate.
  - reflexivity.
  - repeat constructor; simpl; discriminate.
  - simpl. auto.
Defined.

(* ================================================================== *)
(** * Transforming a frame *)

Lemma ct_transform_missing (ct : ColumnTransformer) (df : DataFrame) (c : string) :
  In c (schema ct) -> has_column c df = false ->
  exists diff, In c diff /\ ct_transform ct df = Raise (ColumnsMissing diff).
Proof.
  intros Hin Hhas. unfold ct_transform.
  assert (Hd : In c (filter (fun c => negb (has_column c df)) (schema ct))).
  { apply filter_In. split; [exact Hin | now rewrite Hhas]. }
  destruct (filter _ (schema ct)) as [|x diff]; [contradiction|].
  exists (x :: diff). split; [exact Hd | reflexivity].
Qed.

Section ScriptFacts.
Context {L : Library}.

Lemma score_frame_missing (p : Pipeline) (df : DataFrame) (c : string) :
  In c (schema (preprocess p)) -> has_column c df = false ->
  exists diff, In c diff /\ score_frame p df = Raise (ColumnsMissing diff).
Proof.
  intros Hin Hhas.
  destruct (ct_transform_missing _ _ _ Hin Hhas) as [diff [Hd Ht]].
  exists diff. split; [exact Hd|].
  unfold score_frame, pipe_predict. now rewrite Ht.
Qed.

Lemma train_main_Ok (args : TrainArgs) (w w' : World) (o : TrainOutcome) :
  train_main args w = (Ok o, w') ->
  exists df0,
    read_csv w (t_data args) = Ok df0 /\
    fit_and_check (date_features (use_date_features args) df0) =
      Ok (t_pipe o, t_preds o, t_scores o) /\
    files w' = files w /\
    artifacts w' = (runs_uri (t_run o) "model", t_pipe o) :: artifacts w.
Proof.
  unfold train_main.
  destruct (read_csv w (t_data args)) as [df0|e]; [|discriminate].
  destruct (set_experiment w EXPERIMENT) as [e w1] eqn:He.
  assert (Hw1 : files w1 = files w /\ artifacts w1 = artifacts w).
  { unfold set_experiment in He.
    destruct (get_experiment_by_name w EXPERIMENT); inversion He; subst; auto. }
  simpl.
  destruct (fit_and_check _) as [[[pipe preds] scores]|e'] eqn:Hfit;
    [|discriminate].
  intros H. inversion H; subst; clear H. simpl.
  exists df0. destruct Hw1 as [Hf Ha]. rewrite Hf, Ha. auto.
Qed.

(** Replay on an unchanged frame: when the date step leaves the training
    frame as it was read, the loaded pipeline gives the scoring script the
    labels and scores of the training run. *)
Lemma replay_same_frame (df : DataFrame) (p : Pipeline) (preds : list Z)
      (scores : list Q) :
  fit_and_check df = Ok (p, preds, scores) ->
  exists scored, score_frame p df = Ok (preds, scores, scored).
Proof.
  unfold fit_and_check, score_frame. intros H.
  inv_bind H. inv_bind H. inv_bind H. inversion H; subst; clear H.
  rewrite Ha0, Ha1. simpl. eauto.
Qed.

End ScriptFacts.

(* ================================================================== *)
(** * Replay of the training frame and rejection of missing columns *)

Section Replay.
Context {L : Library}.

Lemma some_unparsed (src : Series) :
  Exists (fun v => is_nan v = true \/ parse_scalar v = None) (s_values src) ->
  forallb is_some (to_datetime parse_scalar src) = false.
Proof.
  unfold to_datetime.
  induction 1 as [c cs [Hn | Hp] | c cs _ IH]; simpl.
  - destruct c; try discriminate. reflexivity.
  - destruct c; try reflexivity; rewrite Hp; reflexivity.
  - rewrite IH. apply andb_false_r.
Qed.

Lemma fit_and_check_schema (df : DataFrame) (p : Pipeline) (preds : list Z)
      (scores : list Q) :
  fit_and_check df = Ok (p, preds, scores) ->
  schema (preprocess p) = numeric_columns df ++ categorical_columns df.
Proof.
  unfold fit_and_check. intros H. inv_bind H.
  apply pipe_fit_schema in Ha.
  inv_bind H. inv_bind H. inversion H; subst. exact Ha.
Qed.

Lemma score_main_steps (args : ScoreArgs) (w : World) (uri : string)
      (df : DataFrame) (p : Pipeline) :
  resolve_model_uri (model_uri args) w = Ok uri ->
  read_csv w (s_data args) = Ok df ->
  load_model w uri = Ok p ->
  score_main args w =
  match score_frame p df with
  | Raise e => (Raise e, w)
  | Ok r =>
      (Ok (snd r),
       create_visualizations (snd r) (viz_dir args) (to_csv w (out args) (snd r)))
  end.
Proof.
  intros Hu Hr Hl. unfold score_main. rewrite Hu. simpl. rewrite Hr. simpl.
  rewrite Hl. simpl. destruct (score_frame p df); reflexivity.
Qed.

(** C1. Training with date features on a frame whose [crash_date] has a
    missing or unparseable cell fits the pipeline on the derived column
    year; the scoring script, given the same file and the model of that
    run, does not derive the column and ends with the missing-columns
    error instead of the labels and scores of the training run. *)
Theorem C1_replay_fails_after_date_expansion
        (targs : TrainArgs) (sargs : ScoreArgs) (w w' : World)
        (o : TrainOutcome) (df : DataFrame) (src : Series) :
  use_date_features targs = true ->
  read_csv w (t_data targs) = Ok df ->
  NoDup (columns df) ->
  get_column "crash_date" df = Some src ->
  Exists (fun v => is_nan v = true \/ parse_scalar v = None) (s_values src) ->
  has_column "year" df = false ->
  train_main targs w = (Ok o, w') ->
  s_data sargs = t_data targs ->
  resolve_model_uri (model_uri sargs) w' = Ok (runs_uri (t_run o) "model") ->
  exists diff,
    In "year" diff /\
    score_main sargs w' = (Raise (ColumnsMissing diff), w').
Proof.
  intros Hflag Hread Hnd Hsrc Hbad Hyear Htrain Hdata Huri.
  destruct (train_main_Ok _ _ _ _ Htrain) as (df0 & Hread0 & Hfit & Hfiles & Hart).
  rewrite Hread in Hread0. inversion Hread0; subst df0; clear Hread0.
  rewrite Hflag in Hfit.
  assert (Hschema : In "year" (schema (preprocess (t_pipe o)))).
  { rewrite (fit_and_check_schema _ _ _ _ Hfit). apply in_or_app. left.
    assert (Hnd' : NoDup (columns (date_features true df))).
    { rewrite (date_features_on df src Hsrc).
      apply NoDup_columns_drop. now repeat apply NoDup_columns_set. }
    unfold numeric_columns.
    apply (select_dtypes_get _ "year"
             (dt_field d_year (to_datetime parse_scalar src)) _ Hnd').
    - rewrite (date_features_on df src Hsrc).
      rewrite get_drop_other by reflexivity.
      rewrite get_set_other by discriminate.
      rewrite get_set_other by discriminate.
      apply get_set_same.
    - unfold dt_field. rewrite (some_unparsed src Hbad). reflexivity. }
  destruct (score_frame_missing _ df "year" Hschema Hyear) as [diff [Hd Hs]].
  exists diff. split; [exact Hd|].
  rewrite (score_main_steps sargs w' _ df (t_pipe o) Huri).
  - now rewrite Hs.
  - unfold read_csv in *. rewrite Hfiles, Hdata. exact Hread.
  - unfold load_model. rewrite Hart. simpl. now rewrite String.eqb_refl.
Qed.

(** C2. When the model URI resolves, the file is read and the pipeline is
    loaded, a frame without a column of the pipeline's schema makes the
    scoring script end with the missing-columns error, which names that
    column; the world is as before, so no output file was written. *)
Theorem C2_missing_column_rejected
        (args : ScoreArgs) (w : World) (uri : string) (df : DataFrame)
        (p : Pipeline) (c : string) :
  resolve_model_uri (model_uri args) w = Ok uri ->
  read_csv w (s_data args) = Ok df ->
  load_model w uri = Ok p ->
  In c (schema (preprocess p)) ->
  has_column c df = false ->
  exists diff,
    In c diff /\
    score_main args w = (Raise (ColumnsMissing diff), w).
Proof.
  intros Hu Hr Hl Hin Hhas.
  destruct (score_frame_missing p df c Hin Hhas) as [diff [Hd Hs]].
  exists diff. split; [exact Hd|].
  rewrite (score_main_steps args w uri df p Hu Hr Hl). now rewrite Hs.
Qed.

End Replay.

Lemma C1_replay_fails_after_date_expansion_witness :
  exists o w',
    train_main (L := Sample.library) Example.dag_train
      (Example.world_of Example.gap_dates) = (Ok o, w') /\
    List.length (t_preds o) = 3%nat /\
    exists diff,
      In "year" diff /\
      score_main Example.dag_score w' = (Raise (ColumnsMissing diff), w').
Proof.
  eexists. eexists. split; [vm_compute; reflexivity|].
  split; [reflexivity|].
  eapply (C1_replay_fails_after_date_expansion (L := Sample.library)
            Example.dag_train Example.dag_score
            (Example.world_of Example.gap_dates) _ _ Example.gap_dates
            (mkSeries object_ [VStr "2021-03-04"; NaN; VStr "2022-11-30"])).
  - reflexivity.
  - reflexivity.
  - repeat constructor; simpl; intuition discriminate.
  - reflexivity.
  - apply Exists_cons_tl. apply Exists_cons_hd. left. reflexivity.
  - reflexivity.
  - vm_compute. reflexivity.
  - reflexivity.
  - vm_compute. reflexivity.
Defined.

Lemma C2_missing_column_rejected_witness :
  exists diff,
    In "weather" diff /\
    score_main (L := Sample.library) Example2.score_held_out
      (Example2.trained_with Example2.no_weather) =
    (Raise (ColumnsMissing diff), Example2.trained_with Example2.no_weather).
Proof.
  eapply (C2_missing_column_rejected (L := Sample.library)
            Example2.score_held_out
            (Example2.trained_with Example2.no_weather)).
  - vm_compute. reflexivity.
  - vm_compute. reflexivity.
  - vm_compute. reflexivity.
  - vm_compute. auto.
  - reflexivity.
Defined.

(* ================================================================== *)
(** * Scoring a frame that has every schema column *)

Lemma filter_nil {A : Type} (f : A -> bool) (l : list A) :
  (forall a, In a l -> f a = false) -> filter f l = [].
Proof.
  induction l as [|a l IH]; simpl; intros H; [reflexivity|].
  rewrite (H a) by now left. apply IH. intros; apply H; now right.
Qed.


Lemma hstack_length (n : nat) (blocks : list (list (list Q))) :
  List.length (hstack n blocks) = n.
Proof. unfold hstack. now rewrite length_map, length_seq. Qed.






Lemma ct_transform_length (ct : ColumnTransformer) (df : DataFrame)
      (X : list (list Q)) :
  ct_transform ct df = Ok X -> List.length X = nrows df.
Proof.
  unfold ct_transform. destruct (filter _ _); [|discriminate].
  intros H. inv_bind H. inv_bind H. inversion H. apply hstack_length.
Qed.

Section ScoreFrame.
Context {L : Library}.

Lemma score_frame_of_transform (p : Pipeline) (df : DataFrame) (X : list (list Q)) :
  ct_transform (preprocess p) df = Ok X ->
  score_frame p df =
  Ok (predict (model p) X, decision_function (model p) X,
      set_column "anomaly_score" (score_series (decision_function (model p) X))
        (set_column "anomaly_pred" (pred_series (predict (model p) X)) df)).
Proof.
  intros H. unfold score_frame, pipe_predict. rewrite H. reflexivity.
Qed.

Lemma score_frame_inv (p : Pipeline) (df scored : DataFrame) (preds : list Z)
      (scores : list Q) :
  score_frame p df = Ok (preds, scores, scored) ->
  exists X,
    ct_transform (preprocess p) df = Ok X /\
    preds = predict (model p) X /\
    scores = decision_function (model p) X /\
    scored = set_column "anomaly_score" (score_series scores)
               (set_column "anomaly_pred" (pred_series preds) df) /\
    List.length preds = nrows df /\
    List.length scores = nrows df.
Proof.
  intros H.
  destruct (ct_transform (preprocess p) df) as [X|e] eqn:HX.
  - rewrite (score_frame_of_transform p df X HX) in H.
    inversion H; subst. exists X.
    pose proof (ct_transform_length _ _ _ HX) as Hlen.
    unfold predict, decision_function. rewrite !length_map. auto 10.
  - unfold score_frame, pipe_predict in H. rewrite HX in H. discriminate.
Qed.

End ScoreFrame.

(* ================================================================== *)
(** * Unseen categories *)

Section UnseenCategory.
Context {L : Library}.



End UnseenCategory.


(* ================================================================== *)
(** * The scored frame *)


Lemma nrows_set (c : string) (s : Series) (df : DataFrame) :
  List.length (s_values s) = nrows df -> nrows (set_column c s df) = nrows df.
Proof.
  intros Hlen. unfold set_column. destruct (has_column c df).
  - destruct df as [|[n s'] df]; simpl; [reflexivity|].
    destruct (String.eqb c n); simpl; [exact Hlen | reflexivity].
  - destruct df as [|[n s'] df]; simpl; [exact Hlen | reflexivity].
Qed.

Section ScoredFrame.
Context {L : Library}.




End ScoredFrame.





(* ================================================================== *)
(** * Resolution of the latest run *)

Lemma insert_by_In {A : Type} (leb : A -> A -> bool) (a x : A) (l : list A) :
  In x (insert_by leb a l) <-> x = a \/ In x l.
Proof.
  induction l as [|y l IH]; simpl.
  - intuition.
  - destruct (leb a y); simpl; [intuition|]. rewrite IH. intuition.
Qed.

Lemma sort_by_In {A : Type} (leb : A -> A -> bool) (x : A) (l : list A) :
  In x (sort_by leb l) <-> In x l.
Proof.
  unfold sort_by. induction l as [|a l IH]; simpl; [tauto|].
  rewrite insert_by_In, IH. intuition.
Qed.

Lemma sort_by_Permutation {A : Type} (leb : A -> A -> bool) (l : list A) :
  Permutation (sort_by leb l) l.
Proof.
  unfold sort_by. induction l as [|a l IH]; simpl; [constructor|].
  transitivity (a :: fold_right (insert_by leb) [] l); [|now constructor].
  generalize (fold_right (insert_by leb) [] l). intros s. clear.
  induction s as [|y s IHs]; simpl; [reflexivity|].
  destruct (leb a y); [reflexivity|].
  rewrite IHs. apply perm_swap.
Qed.

Lemma newest_first_head (l : list Run) (h : Run) (t : list Run) :
  sort_by (fun a b => start_time b <=? start_time a) l = h :: t ->
  In h l /\ forall x, In x l -> start_time x <= start_time h.
Proof.
  intros Hs. split.
  { apply (sort_by_In (fun a b => start_time b <=? start_time a)).
    rewrite Hs. now left. }
  revert h t Hs. unfold sort_by.
  induction l as [|a l IH]; simpl; intros h t Hs x Hx; [contradiction|].
  destruct (fold_right _ [] l) as [|y s] eqn:E; simpl in Hs.
  - inversion Hs; subst. destruct Hx as [<-|Hx]; [lia|].
    apply (sort_by_In (fun a b => start_time b <=? start_time a)) in Hx.
    unfold sort_by in Hx. rewrite E in Hx. contradiction.
  - specialize (IH y s eq_refl).
    destruct (start_time y <=? start_time a) eqn:Hle; inversion Hs; subst.
    + apply Z.leb_le in Hle. destruct Hx as [<-|Hx]; [lia|].
      specialize (IH x Hx). lia.
    + apply Z.leb_gt in Hle. destruct Hx as [<-|Hx]; [lia|].
      now apply IH.
Qed.

Section Resolution.
Context {L : Library}.

Lemma in_experiment (w : World) (e : Experiment) (r : Run) :
  In r (filter (fun r => existsb (Nat.eqb (experiment_id r)) [exp_id e]) (runs w))
  <-> In r (runs w) /\ experiment_id r = exp_id e.
Proof.
  rewrite filter_In. simpl. rewrite orb_false_r, Nat.eqb_eq. tauto.
Qed.

Lemma resolve_latest_max (w : World) (e : Experiment) (r : Run) :
  get_experiment_by_name w EXPERIMENT = Some e ->
  In r (runs w) -> experiment_id r = exp_id e ->
  exists r0,
    resolve_latest w = Ok (runs_uri (run_id r0) "model") /\
    In r0 (runs w) /\ experiment_id r0 = exp_id e /\
    forall r', In r' (runs w) -> experiment_id r' = exp_id e ->
               start_time r' <= start_time r0.
Proof.
  intros He Hin Hexp. unfold resolve_latest, search_runs. rewrite He.
  destruct (sort_by _ (filter _ (runs w))) as [|h t] eqn:Hs.
  - exfalso.
    assert (Hr : In r (sort_by (fun a b => start_time b <=? start_time a)
                         (filter (fun r => existsb (Nat.eqb (experiment_id r))
                                                   [exp_id e]) (runs w)))).
    { apply sort_by_In. apply in_experiment. auto. }
    rewrite Hs in Hr. contradiction.
  - destruct (newest_first_head _ _ _ Hs) as [Hh Hmax].
    apply in_experiment in Hh. destruct Hh as [Hh1 Hh2].
    exists h. simpl. repeat split; auto.
    intros r' Hr' He'. apply Hmax. apply in_experiment. auto.
Qed.

Lemma resolve_latest_no_runs (w : World) (e : Experiment) :
  get_experiment_by_name w EXPERIMENT = Some e ->
  (forall r, In r (runs w) -> experiment_id r <> exp_id e) ->
  resolve_latest w = Raise no_runs_found.
Proof.
  intros He Hnone. unfold resolve_latest, search_runs. rewrite He.
  rewrite filter_nil; [reflexivity|].
  intros r Hr. simpl. rewrite orb_false_r. apply Nat.eqb_neq. now apply Hnone.
Qed.

Lemma resolve_latest_started_last (w : World) (e : Experiment) (r : Run) :
  get_experiment_by_name w EXPERIMENT = Some e ->
  started_last w e r ->
  resolve_latest w = Ok (runs_uri (run_id r) "model").
Proof.
  intros He (Hin & Hexp & Huniq).
  destruct (resolve_latest_max w e r He Hin Hexp) as (r0 & Hres & Hin0 & Hexp0 & Hmax).
  rewrite Hres. now rewrite (Huniq r0 Hin0 Hexp0 (Hmax r Hin Hexp)).
Qed.

Lemma score_main_unresolved (args : ScoreArgs) (w : World) (e : exn) :
  model_uri args = "latest" -> resolve_latest w = Raise e ->
  score_main args w = (Raise e, w).
Proof.
  intros Hu Hr. unfold score_main, resolve_model_uri. rewrite Hu. simpl.
  rewrite Hr. reflexivity.
Qed.

Lemma ct_transform_Raise (ct : ColumnTransformer) (df : DataFrame) (e : exn) :
  ct_transform ct df = Raise e ->
  (exists diff, e = ColumnsMissing diff) \/
  e = ValueError "A given column is not a column of the dataframe" \/
  e = ValueError "Cannot use median strategy with non-numeric data" \/
  e = ValueError "Found unknown categories during transform".
Proof.
  unfold ct_transform. destruct (filter _ _) as [|x diff].
  2:{ intros H. inversion H. left. eauto. }
  intros H. right.
  assert (Hfetch : forall c s, fetch c df = Raise s ->
            s = ValueError "A given column is not a column of the dataframe").
  { intros c s. unfold fetch. destruct (get_column c df); [discriminate|].
    intros Hs. now inversion Hs. }
  apply bind_Raise in H. destruct H as [H | [nums [_ H]]].
  - apply mapM_Raise in H. destruct H as [[c f] [_ H]].
    unfold num_column in H. simpl in H.
    apply bind_Raise in H. destruct H as [H | [s [_ H]]].
    + left. eapply Hfetch; eauto.
    + apply bind_Raise in H. destruct H as [H | [vals [_ H]]]; [|discriminate].
      apply mapM_Raise in H. destruct H as [v [_ H]].
      right. left. destruct v; simpl in H; try discriminate. now inversion H.
  - apply bind_Raise in H. destruct H as [H | [cats [_ H]]]; [|discriminate].
    apply mapM_Raise in H. destruct H as [[c f] [_ H]].
    unfold cat_column in H. simpl in H.
    apply bind_Raise in H. destruct H as [H | [s [_ H]]].
    + left. eapply Hfetch; eauto.
    + unfold cat_transform in H. destruct f as [enc|]; [|discriminate].
      apply bind_Raise in H. destruct H as [H | [bs [_ H]]]; [|discriminate].
      apply mapM_Raise in H. destruct H as [v [_ H]].
      right. right. unfold onehot in H.
      destruct (existsb _ _); [discriminate|].
      destruct (unknown enc); [|discriminate]. now inversion H.
Qed.

Lemma input_error_cases (e : exn) :
  input_error e ->
  (exists path, e = FileNotFoundError path) \/
  (exists diff, e = ColumnsMissing diff) \/
  e = ValueError "A given column is not a column of the dataframe" \/
  e = ValueError "Cannot use median strategy with non-numeric data" \/
  e = ValueError "Found unknown categories during transform".
Proof.
  intros [[w [path H]] | [p [df H]]].
  - left. unfold read_csv in H. destruct (lookup _ _); [discriminate|].
    inversion H. eauto.
  - right. apply ct_transform_Raise with (ct := preprocess p) (df := df).
    unfold score_frame, pipe_predict in H.
    destruct (ct_transform (preprocess p) df); [discriminate|].
    simpl in H. now inversion H.
Qed.

(** C6. With ["latest"] as the model URI: when the experiment does not
    exist, scoring ends with the experiment-not-found error, and when it
    has no run, with the no-runs error, in both cases before anything is
    read or written; neither is an error of the input side. When the
    experiment has a run, the URI is that of a run of the experiment whose
    start time no other run of it exceeds; and the run that started after
    all others is the one resolved, in whatever order the registry stores
    the runs. *)
Theorem C6_latest_resolution (w : World) :
  (get_experiment_by_name w EXPERIMENT = None ->
   forall args, model_uri args = "latest" ->
                score_main args w = (Raise experiment_not_found, w))
  /\
  (forall e, get_experiment_by_name w EXPERIMENT = Some e ->
             (forall r, In r (runs w) -> experiment_id r <> exp_id e) ->
             forall args, model_uri args = "latest" ->
                          score_main args w = (Raise no_runs_found, w))
  /\
  (~ input_error experiment_not_found /\ ~ input_error no_runs_found)
  /\
  (forall e r, get_experiment_by_name w EXPERIMENT = Some e ->
               In r (runs w) -> experiment_id r = exp_id e ->
               exists r0,
                 resolve_model_uri "latest" w = Ok (runs_uri (run_id r0) "model") /\
                 In r0 (runs w) /\ experiment_id r0 = exp_id e /\
                 forall r', In r' (runs w) -> experiment_id r' = exp_id e ->
                            start_time r' <= start_time r0)
  /\
  (forall e r w2, get_experiment_by_name w EXPERIMENT = Some e ->
                  get_experiment_by_name w2 EXPERIMENT = Some e ->
                  Permutation (runs w) (runs w2) ->
                  started_last w e r ->
                  resolve_model_uri "latest" w = Ok (runs_uri (run_id r) "model") /\
                  resolve_model_uri "latest" w2 = Ok (runs_uri (run_id r) "model")).
Proof.
  split; [|split; [|split; [|split]]].
  - intros He args Hu. apply score_main_unresolved; [exact Hu|].
    unfold resolve_latest. now rewrite He.
  - intros e He Hnone args Hu. apply score_main_unresolved; [exact Hu|].
    now apply (resolve_latest_no_runs w e).
  - split; intros H; apply input_error_cases in H;
      destruct H as [[? H] | [[? H] | [H | [H | H]]]]; discriminate H.
  - intros e r He Hin Hexp. apply (resolve_latest_max w e r He Hin Hexp).
  - intros e r w2 He He2 Hperm Hlast. unfold resolve_model_uri. simpl. split.
    + now apply (resolve_latest_started_last w e r).
    + apply (resolve_latest_started_last w2 e r He2).
      destruct Hlast as (Hin & Hexp & Huniq). repeat split.
      * now apply (Permutation_in _ Hperm).
      * exact Hexp.
      * intros r' Hr'. apply Huniq.
        now apply (Permutation_in _ (Permutation_sym Hperm)).
Qed.

End Resolution.

Lemma C6_latest_resolution_witness :
  score_main (L := Sample.library) Example.dag_score Example3.nothing_trained
  = (Raise experiment_not_found, Example3.nothing_trained) /\
  resolve_model_uri "latest" Example3.newer_first = Ok "runs:/b/model" /\
  resolve_model_uri "latest" Example3.newer_last = Ok "runs:/b/model".
Proof.
  destruct (C6_latest_resolution (L := Sample.library) Example3.nothing_trained)
    as [Hnone _].
  destruct (C6_latest_resolution (L := Sample.library) Example3.newer_first)
    as (_ & _ & _ & _ & Horder).
  split; [apply Hnone; reflexivity|].
  apply (Horder Example3.experiment Example3.newer Example3.newer_last).
  - reflexivity.
  - reflexivity.
  - apply perm_swap.
  - split; [simpl; auto|]. split; [reflexivity|].
    intros r' [<-|[<-|[]]] _ Hle; [reflexivity|].
    vm_compute in Hle. exfalso. apply Hle. reflexivity.
Defined.

(* ================================================================== *)
(** * Determinism of training *)

Section Determinism.
Context {L : Library}.

Lemma train_main_result (args : TrainArgs) (w : World) :
  match read_csv w (t_data args) with
  | Raise e => fst (train_main args w) = Raise e
  | Ok df0 =>
      match fit_and_check (date_features (use_date_features args) df0) with
      | Raise e => fst (train_main args w) = Raise e
      | Ok (pipe, preds, scores) =>
          exists id, fst (train_main args w) = Ok (mkTrainOutcome id pipe preds scores)
      end
  end.
Proof.
  unfold train_main.
  destruct (read_csv w (t_data args)) as [df0|e]; [|reflexivity].
  destruct (set_experiment w EXPERIMENT) as [e w1]. simpl.
  destruct (fit_and_check _) as [[[pipe preds] scores]|e']; simpl; eauto.
Qed.


Lemma same_fit_of_same_file (args : TrainArgs) (w1 w2 : World) :
  read_csv w1 (t_data args) = read_csv w2 (t_data args) ->
  same_fit (fst (train_main args w1)) (fst (train_main args w2)).
Proof.
  intros Hread.
  pose proof (train_main_result args w1) as H1.
  pose proof (train_main_result args w2) as H2.
  rewrite <- Hread in H2.
  destruct (read_csv w1 (t_data args)) as [df0|e].
  - destruct (fit_and_check _) as [[[pipe preds] scores]|e'].
    + destruct H1 as [id1 ->]. destruct H2 as [id2 ->]. simpl. auto.
    + rewrite H1, H2. reflexivity.
  - rewrite H1, H2. reflexivity.
Qed.


End Determinism.


(* ================================================================== *)
(** * Dependence on the schema columns only *)

Lemma agree_has_column (cols : list string) (df1 df2 : DataFrame) (c : string) :
  agree_on cols df1 df2 -> In c cols -> has_column c df1 = has_column c df2.
Proof.
  intros [_ H] Hc. rewrite !has_column_get. specialize (H c Hc).
  destruct (get_column c df1), (get_column c df2); simpl in *;
    congruence.
Qed.

Lemma agree_fetch {A : Type} (cols : list string) (df1 df2 : DataFrame)
      (c : string) (k : list cell -> result A) :
  agree_on cols df1 df2 -> In c cols ->
  (s <- fetch c df1 ;; k (s_values s)) = (s <- fetch c df2 ;; k (s_values s)).
Proof.
  intros [_ H] Hc. specialize (H c Hc). unfold fetch.
  destruct (get_column c df1), (get_column c df2); simpl in *;
    try discriminate; [|reflexivity].
  inversion H as [Hv]. now rewrite Hv.
Qed.

Lemma ct_transform_agree (ct : ColumnTransformer) (df1 df2 : DataFrame) :
  agree_on (schema ct) df1 df2 -> ct_transform ct df1 = ct_transform ct df2.
Proof.
  intros Hag. unfold ct_transform.
  assert (Hf : filter (fun c => negb (has_column c df1)) (schema ct) =
               filter (fun c => negb (has_column c df2)) (schema ct)).
  { apply filter_ext_in. intros c Hc.
    now rewrite (agree_has_column _ _ _ c Hag Hc). }
  rewrite Hf.
  assert (Hn : mapM (num_column df1) (num_part ct) =
               mapM (num_column df2) (num_part ct)).
  { apply mapM_ext_in. intros [c f] Hin. unfold num_column. simpl.
    apply (agree_fetch (schema ct) df1 df2 c
             (fun cells => vals <- mapM to_float cells ;;
                           Ok (num_transform f vals)) Hag).
    unfold schema, num_cols. apply in_or_app. left.
    apply in_map_iff. now exists (c, f). }
  assert (Hc : mapM (cat_column df1) (cat_part ct) =
               mapM (cat_column df2) (cat_part ct)).
  { apply mapM_ext_in. intros [c f] Hin. unfold cat_column. simpl.
    apply (agree_fetch (schema ct) df1 df2 c (cat_transform f) Hag).
    unfold schema, cat_cols. apply in_or_app. right.
    apply in_map_iff. now exists (c, f). }
  rewrite Hn, Hc. destruct Hag as [Hrows _]. now rewrite Hrows.
Qed.

Section SchemaOnly.
Context {L : Library}.

Lemma labels_and_scores_of_transform (p : Pipeline) (df : DataFrame) :
  labels_and_scores (score_frame p df) =
  (X <- ct_transform (preprocess p) df ;;
   Ok (predict (model p) X, decision_function (model p) X)).
Proof.
  unfold score_frame, pipe_predict.
  destruct (ct_transform (preprocess p) df); reflexivity.
Qed.

(** C10. Two frames with as many rows and the same cells in every schema
    column get the same labels and scores from a pipeline, or the same
    exception, whatever the order of their columns and whatever other
    columns they hold; and every column of the input that is not named
    anomaly_pred or anomaly_score is in the scored frame as it was in the
    input. *)
Theorem C10_schema_columns_only (p : Pipeline) (df1 df2 : DataFrame) :
  agree_on (schema (preprocess p)) df1 df2 ->
  labels_and_scores (score_frame p df1) = labels_and_scores (score_frame p df2)
  /\
  (forall preds scores scored c,
      score_frame p df1 = Ok (preds, scores, scored) ->
      c <> "anomaly_pred" -> c <> "anomaly_score" ->
      get_column c scored = get_column c df1).
Proof.
  intros Hag. split.
  - rewrite !labels_and_scores_of_transform.
    now rewrite (ct_transform_agree _ _ _ Hag).
  - intros preds scores scored c Hs Hc1 Hc2.
    destruct (score_frame_inv _ _ _ _ _ Hs) as (_ & _ & _ & _ & -> & _).
    now rewrite !get_set_other.
Qed.

End SchemaOnly.

Lemma C10_schema_columns_only_witness :
  labels_and_scores (score_frame (L := Sample.library) Example2.plain_pipe
                       Example2.new_weather) =
  labels_and_scores (score_frame (L := Sample.library) Example2.plain_pipe
                       Example2.new_weather_reordered)
  /\
  (forall preds scores scored c,
      score_frame (L := Sample.library) Example2.plain_pipe Example2.new_weather
      = Ok (preds, scores, scored) ->
      c <> "anomaly_pred" -> c <> "anomaly_score" ->
      get_column c scored = get_column c Example2.new_weather).
Proof.
  apply (C10_schema_columns_only (L := Sample.library) Example2.plain_pipe
           Example2.new_weather Example2.new_weather_reordered).
  split; [reflexivity|].
  intros c Hc. vm_compute in Hc.
  destruct Hc as [<-|[<-|[]]]; reflexivity.
Defined.

(** The claim that every column outside the schema is carried unchanged
    into the output fails on a file that was scored before: its column
    anomaly_score is not in the schema, and the output holds the new scores
    in it. *)
Lemma C10_counterexample :
  exists preds scores scored,
    score_frame (L := Sample.library) Example2.plain_pipe Example2.scored_before
    = Ok (preds, scores, scored) /\
    ~ In "anomaly_score" (schema (preprocess Example2.plain_pipe)) /\
    has_column "anomaly_score" Example2.scored_before = true /\
    ~ extras_carried (schema (preprocess Example2.plain_pipe))
        Example2.scored_before scored.
Proof.
  do 3 eexists. split; [vm_compute; reflexivity|].
  assert (Hout : ~ In "anomaly_score" (schema (preprocess Example2.plain_pipe))).
  { vm_compute. intros [H|[H|[]]]; discriminate H. }
  split; [exact Hout|]. split; [reflexivity|].
  intros H. specialize (H "anomaly_score" Hout eq_refl).
  vm_compute in H. discriminate H.
Qed.

Lemma C8_date_expansion_witness :
  (exists src y m d,
     get_column "crash_date" Example.gap_dates = Some src /\
     get_column "year" (date_features (L := Sample.library) true Example.gap_dates) = Some y /\
     get_column "month" (date_features (L := Sample.library) true Example.gap_dates) = Some m /\
     get_column "day" (date_features (L := Sample.library) true Example.gap_dates) = Some d /\
     date_column (L := Sample.library) d_year src y /\
     date_column (L := Sample.library) d_month src m /\
     date_column (L := Sample.library) d_day src d /\
     has_column "crash_date" (date_features (L := Sample.library) true Example.gap_dates) = false /\
     (forall c, c <> "crash_date" -> c <> "year" -> c <> "month" -> c <> "day" ->
                get_column c (date_features (L := Sample.library) true Example.gap_dates) =
                get_column c Example.gap_dates) /\
     (has_column "year" Example.gap_dates = false ->
      has_column "month" Example.gap_dates = false ->
      has_column "day" Example.gap_dates = false ->
      date_features (L := Sample.library) true Example.gap_dates =
      drop_columns ["crash_date"] Example.gap_dates ++
      [("year", y); ("month", m); ("day", d)]))
  /\
  date_features (L := Sample.library) false Example.gap_dates = Example.gap_dates.
Proof.
  destruct (C8_date_expansion (L := Sample.library) true Example.gap_dates)
    as [Hon _].
  destruct (C8_date_expansion (L := Sample.library) false Example.gap_dates)
    as [_ Hoff].
  split.
  - apply Hon; reflexivity.
  - apply Hoff. left. reflexivity.
Defined.

(** The pipeline of the examples is the one the training script fits on
    [Example.plain]. *)
Lemma plain_pipe_is_fitted :
  pipe_fit (L := Sample.library) (numeric_columns Example.plain)
    (categorical_columns Example.plain) Example.plain
  = Ok Example2.plain_pipe.
Proof. vm_compute. reflexivity. Qed.

(* ================================================================== *)
(** * What a training run leaves in the registry *)

Lemma find_app_none {A : Type} (f : A -> bool) (l1 l2 : list A) :
  find f l1 = None -> find f (l1 ++ l2) = find f l2.
Proof.
  induction l1 as [|a l1 IH]; simpl; [reflexivity|].
  destruct (f a); [discriminate | exact IH].
Qed.

Lemma map_update_fresh (f : Run -> Run) (id : string) (l : list Run) :
  (forall r, In r l -> run_id r <> id) ->
  map (fun r => if String.eqb (run_id r) id then f r else r) l = l.
Proof.
  induction l as [|r l IH]; simpl; intros H; [reflexivity|].
  rewrite IH by (intros; apply H; now right).
  destruct (String.eqb (run_id r) id) eqn:E; [|reflexivity].
  apply String.eqb_eq in E. exfalso. now apply (H r); [left|].
Qed.

Section TrainingEffects.
Context {L : Library}.

Lemma set_experiment_spec (w : World) :
  get_experiment_by_name (snd (set_experiment w EXPERIMENT)) EXPERIMENT
  = Some (fst (set_experiment w EXPERIMENT)) /\
  files (snd (set_experiment w EXPERIMENT)) = files w /\
  runs (snd (set_experiment w EXPERIMENT)) = runs w /\
  artifacts (snd (set_experiment w EXPERIMENT)) = artifacts w /\
  clock (snd (set_experiment w EXPERIMENT)) = clock w /\
  entropy (snd (set_experiment w EXPERIMENT)) = entropy w /\
  (experiments (snd (set_experiment w EXPERIMENT)) = experiments w \/
   experiments (snd (set_experiment w EXPERIMENT)) =
   experiments w ++ [fst (set_experiment w EXPERIMENT)]).
Proof.
  unfold set_experiment.
  destruct (get_experiment_by_name w EXPERIMENT) as [e|] eqn:He; simpl.
  - repeat split; auto.
  - repeat split; auto.
    unfold get_experiment_by_name in *. simpl.
    rewrite find_app_none by exact He. simpl. reflexivity.
Qed.

(** The shape of the world after a training attempt that read its file. *)
Lemma train_main_world (args : TrainArgs) (w w' : World) (df0 : DataFrame)
      (r : result TrainOutcome) :
  read_csv w (t_data args) = Ok df0 ->
  train_main args w = (r, w') ->
  exists e g st ms,
    get_experiment_by_name w' EXPERIMENT = Some e /\
    runs w' = map g (runs w) ++ [new_run w e st ms] /\
    (forall x, run_id (g x) = run_id x /\ experiment_id (g x) = experiment_id x /\
               start_time (g x) = start_time x) /\
    (forall x, run_id x <> fresh_run_id (entropy w) -> g x = x) /\
    files w' = files w /\
    clock w' = clock w /\
    (experiments w' = experiments w \/ experiments w' = experiments w ++ [e]) /\
    match r with
    | Ok o =>
        fit_and_check (date_features (use_date_features args) df0)
        = Ok (t_pipe o, t_preds o, t_scores o) /\
        t_run o = fresh_run_id (entropy w) /\
        st = FINISHED /\ ms = [("anomaly_rate", anomaly_rate (t_preds o))] /\
        artifacts w' = (runs_uri (t_run o) "model", t_pipe o) :: artifacts w
    | Raise ex =>
        fit_and_check (date_features (use_date_features args) df0) = Raise ex /\
        st = FAILED /\ ms = [] /\ artifacts w' = artifacts w
    end.
Proof.
  intros Hread. unfold train_main. rewrite Hread.
  pose proof (set_experiment_spec w) as Hse.
  destruct (set_experiment w EXPERIMENT) as [e w1]. simpl in Hse.
  destruct Hse as (Hget & Hf & Hr & Ha & Hc & Hen & Hex).
  simpl.
  set (id := fresh_run_id (entropy w1)).
  assert (Hid : id = fresh_run_id (entropy w)) by (unfold id; now rewrite Hen).
  destruct (fit_and_check _) as [[[pipe preds] scores]|ex] eqn:Hfit;
    intros H; inversion H; subst r w'; clear H; simpl.
  - exists e.
    exists (fun x =>
              let y := if String.eqb (run_id x) id
                       then mkRun (run_id x) (experiment_id x) (start_time x)
                                  (status x)
                                  (metrics x ++ [("anomaly_rate", anomaly_rate preds)])
                       else x in
              if String.eqb (run_id y) id
              then mkRun (run_id y) (experiment_id y) (start_time y) FINISHED
                         (metrics y)
              else y).
    exists FINISHED, [("anomaly_rate", anomaly_rate preds)].
    split; [exact Hget|]. split.
    { rewrite !map_app, !map_map. simpl. rewrite Hr. f_equal.
      unfold new_run. fold id. rewrite String.eqb_refl. simpl.
      rewrite String.eqb_refl. now rewrite <- Hid, Hc. }
    split.
    { intros x. destruct (String.eqb (run_id x) id) eqn:E; simpl;
        rewrite E; simpl; auto. }
    split.
    { intros x Hx. rewrite <- Hid in Hx. apply String.eqb_neq in Hx.
      rewrite Hx. simpl. now rewrite Hx. }
    rewrite Hf, Hc, Ha. repeat split; auto.
  - exists e.
    exists (fun x => if String.eqb (run_id x) id
                     then mkRun (run_id x) (experiment_id x) (start_time x)
                                FAILED (metrics x)
                     else x).
    exists FAILED, [].
    split; [exact Hget|]. split.
    { rewrite map_app. simpl. rewrite Hr. f_equal.
      unfold new_run. fold id. rewrite String.eqb_refl. simpl.
      now rewrite <- Hid, Hc. }
    split.
    { intros x. destruct (String.eqb (run_id x) id); simpl; auto. }
    split.
    { intros x Hx. rewrite <- Hid in Hx. apply String.eqb_neq in Hx.
      now rewrite Hx. }
    rewrite Hf, Hc, Ha. repeat split; auto.
Qed.

End TrainingEffects.

Section TrainingRegistry.
Context {L : Library}.

(** X1. A training run that succeeds appends one run to the registry and
    changes no other: the new run belongs to the training experiment,
    starts at the current time, is finished and carries the single metric
    anomaly_rate of the self-check; the fitted pipeline is stored under
    the run's model URI and is what loading that URI returns; no file is
    touched and at most the training experiment is added. *)
Theorem X1_training_registers_one_run
        (args : TrainArgs) (w w' : World) (o : TrainOutcome) :
  train_main args w = (Ok o, w') ->
  next_id_fresh w ->
  exists e,
    get_experiment_by_name w' EXPERIMENT = Some e /\
    runs w' = runs w ++
              [new_run w e FINISHED [("anomaly_rate", anomaly_rate (t_preds o))]] /\
    t_run o = fresh_run_id (entropy w) /\
    artifacts w' = (runs_uri (t_run o) "model", t_pipe o) :: artifacts w /\
    load_model w' (runs_uri (t_run o) "model") = Ok (t_pipe o) /\
    files w' = files w /\
    (experiments w' = experiments w \/ experiments w' = experiments w ++ [e]).
Proof.
  intros Htrain Hfresh.
  destruct (train_main_Ok _ _ _ _ Htrain) as (df0 & Hread & _).
  destruct (train_main_world _ _ _ _ _ Hread Htrain)
    as (e & g & st & ms & Hget & Hruns & _ & Hg & Hfiles & _ & Hexp & Hok).
  destruct Hok as (_ & Hid & -> & -> & Hart).
  exists e. split; [exact Hget|]. split.
  { rewrite Hruns. f_equal.
    rewrite <- (map_id (runs w)) at 2. apply map_ext_in.
    intros x Hx. apply Hg. now apply Hfresh. }
  split; [exact Hid|]. split; [exact Hart|]. split.
  { unfold load_model. rewrite Hart. simpl. now rewrite String.eqb_refl. }
  auto.
Qed.


End TrainingRegistry.

Lemma X1_training_registers_one_run_witness :
  exists e,
    get_experiment_by_name
      (snd (train_main (L := Sample.library) Example.dag_train
              (Example4.with_history Example.plain))) EXPERIMENT = Some e /\
    runs (snd (train_main (L := Sample.library) Example.dag_train
                 (Example4.with_history Example.plain)))
    = [Example3.older;
       mkRun "run-7" (exp_id e) 5000 FINISHED [("anomaly_rate", 1 # 3)]] /\
    load_model (snd (train_main (L := Sample.library) Example.dag_train
                       (Example4.with_history Example.plain)))
               "runs:/run-7/model" = Ok Example2.plain_pipe.
Proof.
  destruct (X1_training_registers_one_run (L := Sample.library)
              Example.dag_train (Example4.with_history Example.plain)
              (snd (train_main (L := Sample.library) Example.dag_train
                      (Example4.with_history Example.plain)))
              Example4.plain_outcome)
    as (e & He & Hr & _ & _ & Hl & _).
  - vm_compute. reflexivity.
  - intros r [<-|[]]. vm_compute. discriminate.
  - exists e. split; [exact He|]. split; [exact Hr | exact Hl].
Defined.


(* ================================================================== *)
(** * The self-check of training *)

Lemma anomaly_rate_bounds (preds : list Z) :
  preds <> [] -> (0 <= anomaly_rate preds <= 1)%Q.
Proof.
  intros Hne. unfold anomaly_rate. rewrite Qred_correct. unfold Qlen.
  assert (Hn : (0 < Z.of_nat (List.length preds))%Z)
    by (destruct preds; [contradiction | simpl; lia]).
  assert (Hk : (0 <= Z.of_nat (List.length (filter (Z.eqb (-1)) preds))
                <= Z.of_nat (List.length preds))%Z).
  { split; [lia|]. apply inj_le. apply filter_length_le. }
  assert (HnQ : (0 < inject_Z (Z.of_nat (List.length preds)))%Q)
    by (rewrite <- (Zlt_Qlt 0); exact Hn).
  split.
  - apply Qle_shift_div_l; [exact HnQ|]. rewrite Qmult_0_l.
    rewrite <- (Zle_Qle 0). lia.
  - apply Qle_shift_div_r; [exact HnQ|]. rewrite Qmult_1_l.
    rewrite <- Zle_Qle. lia.
Qed.

Section SelfCheck.
Context {L : Library}.

Lemma fit_and_check_inv (df : DataFrame) (p : Pipeline) (preds : list Z)
      (scores : list Q) :
  fit_and_check df = Ok (p, preds, scores) ->
  exists X row,
    ct_transform (preprocess p) df = Ok (row :: X) /\
    row <> [] /\
    preds = predict (model p) (row :: X) /\
    scores = decision_function (model p) (row :: X).
Proof.
  unfold fit_and_check. intros H.
  apply bind_Ok in H. destruct H as [pipe [Hfit H]].
  apply bind_Ok in H. destruct H as [preds0 [Hpred H]].
  apply bind_Ok in H. destruct H as [X [HX H]].
  inversion H; subst; clear H.
  unfold pipe_predict in Hpred. rewrite HX in Hpred. simpl in Hpred.
  inversion Hpred; subst; clear Hpred.
  unfold pipe_fit in Hfit.
  apply bind_Ok in Hfit. destruct Hfit as [ct [_ Hfit]].
  apply bind_Ok in Hfit. destruct Hfit as [X0 [HX0 Hfit]].
  apply bind_Ok in Hfit. destruct Hfit as [m [Hm Hfit]].
  inversion Hfit; subst; clear Hfit. simpl in HX. rewrite HX in HX0.
  inversion HX0; subst X0; clear HX0.
  unfold if_fit in Hm. destruct X as [|row X]; [discriminate|].
  exists X, row. repeat split; auto.
  intros ->. simpl in Hm. discriminate.
Qed.

(** X3. The self-check of a training run that succeeds gives one label
    and one score for every row of the frame it fitted, of which there is
    at least one; every label is 1 or -1, and the logged anomaly rate lies
    between 0 and 1. *)
Theorem X3_self_check_shape
        (args : TrainArgs) (w w' : World) (o : TrainOutcome) :
  train_main args w = (Ok o, w') ->
  exists df0,
    read_csv w (t_data args) = Ok df0 /\
    (0 < nrows (date_features (use_date_features args) df0))%nat /\
    List.length (t_preds o) = nrows (date_features (use_date_features args) df0) /\
    List.length (t_scores o) = nrows (date_features (use_date_features args) df0) /\
    Forall (fun l => l = 1 \/ l = -1) (t_preds o) /\
    (0 <= anomaly_rate (t_preds o) <= 1)%Q.
Proof.
  intros Htrain.
  destruct (train_main_Ok _ _ _ _ Htrain) as (df0 & Hread & Hfit & _).
  exists df0. split; [exact Hread|].
  destruct (fit_and_check_inv _ _ _ _ Hfit) as (X & row & HX & _ & Hp & Hs).
  pose proof (ct_transform_length _ _ _ HX) as Hlen.
  assert (Hlp : List.length (t_preds o)
                = nrows (date_features (use_date_features args) df0)).
  { rewrite Hp. unfold predict, decision_function. now rewrite !length_map. }
  split; [rewrite <- Hlen; simpl; lia|].
  split; [exact Hlp|].
  split.
  { rewrite Hs. unfold decision_function. now rewrite length_map. }
  split.
  { rewrite Hp. unfold predict. apply Forall_forall. intros l Hl.
    apply in_map_iff in Hl. destruct Hl as [d [<- _]].
    unfold label. destruct (Qltb d 0); auto. }
  apply anomaly_rate_bounds. intros Hnil.
  rewrite Hnil in Hlp. rewrite <- Hlen in Hlp. discriminate.
Qed.

End SelfCheck.

Lemma X3_self_check_shape_witness :
  exists df0,
    read_csv (Example4.with_history Example.plain) "traffic_accidents.csv" = Ok df0 /\
    (0 < nrows (date_features (L := Sample.library) true df0))%nat /\
    List.length (t_preds Example4.plain_outcome)
    = nrows (date_features (L := Sample.library) true df0) /\
    List.length (t_scores Example4.plain_outcome)
    = nrows (date_features (L := Sample.library) true df0) /\
    Forall (fun l => l = 1 \/ l = -1) (t_preds Example4.plain_outcome) /\
    (0 <= anomaly_rate (t_preds Example4.plain_outcome) <= 1)%Q.
Proof.
  apply (X3_self_check_shape (L := Sample.library) Example.dag_train
           (Example4.with_history Example.plain)
           (snd (train_main (L := Sample.library) Example.dag_train
                   (Example4.with_history Example.plain)))
           Example4.plain_outcome).
  vm_compute. reflexivity.
Defined.

(* ================================================================== *)
(** * Frames that cannot be fitted *)

Section Unusable.
Context {L : Library}.

Lemma fit_and_check_unusable (df : DataFrame) :
  numeric_columns df = [] -> categorical_columns df = [] ->
  exists msg, fit_and_check df = Raise (ValueError msg).
Proof.
  intros Hn Hc. unfold fit_and_check, pipe_fit, ct_fit. rewrite Hn, Hc.
  simpl. rewrite andb_false_r. simpl.
  unfold ct_transform. simpl. unfold hstack.
  destruct (nrows df) as [|n]; simpl; eauto.
Qed.

Lemma fit_and_check_no_rows (df : DataFrame) :
  nrows df = 0%nat -> exists msg, fit_and_check df = Raise (ValueError msg).
Proof.
  intros Hrows.
  destruct (numeric_columns df ++ categorical_columns df) as [|c cs] eqn:Hcols.
  - apply app_eq_nil in Hcols. destruct Hcols. now apply fit_and_check_unusable.
  - unfold fit_and_check, pipe_fit, ct_fit. rewrite Hrows, Hcols. simpl. eauto.
Qed.

(** X4. Training fails with a [ValueError], after registering its run and
    without storing a model, when the frame left by the date step has no
    row, or no column of dtype int64, float64, object or bool. *)
Theorem X4_training_needs_rows_and_columns
        (args : TrainArgs) (w : World) (df0 : DataFrame) :
  read_csv w (t_data args) = Ok df0 ->
  nrows (date_features (use_date_features args) df0) = 0%nat \/
  (numeric_columns (date_features (use_date_features args) df0) = [] /\
   categorical_columns (date_features (use_date_features args) df0) = []) ->
  exists msg w',
    train_main args w = (Raise (ValueError msg), w') /\
    List.length (runs w') = S (List.length (runs w)) /\
    artifacts w' = artifacts w.
Proof.
  intros Hread Hbad.
  assert (Hfit : exists msg,
             fit_and_check (date_features (use_date_features args) df0)
             = Raise (ValueError msg)).
  { destruct Hbad as [H | [Hn Hc]];
      [now apply fit_and_check_no_rows | now apply fit_and_check_unusable]. }
  destruct Hfit as [msg Hfit].
  destruct (train_main args w) as [r w'] eqn:Htrain.
  destruct (train_main_world _ _ _ _ _ Hread Htrain)
    as (e & g & st & ms & _ & Hruns & _ & _ & _ & _ & _ & Hr).
  destruct r as [o|ex].
  - destruct Hr as [Hok _]. rewrite Hfit in Hok. discriminate.
  - destruct Hr as (Hex & _ & _ & Hart). rewrite Hfit in Hex.
    inversion Hex; subst ex. exists msg, w'. split; [reflexivity|].
    split; [|exact Hart].
    rewrite Hruns, length_app, length_map. simpl. lia.
Qed.

End Unusable.

Lemma X4_training_needs_rows_and_columns_witness :
  exists msg w',
    train_main (L := Sample.library) Example.dag_train
      (Example4.with_history Example4.only_dates)
    = (Raise (ValueError msg), w') /\
    List.length (runs w') = 2%nat /\
    artifacts w' = [("runs:/a/model", Example2.plain_pipe)].
Proof.
  apply (X4_training_needs_rows_and_columns (L := Sample.library)
           Example.dag_train (Example4.with_history Example4.only_dates)
           Example4.only_dates).
  - reflexivity.
  - right. split; reflexivity.
Defined.

(* ================================================================== *)
(** * Replay on frames whose schema columns survive the date step *)

Lemma In_set_column (x : string * Series) (c : string) (s : Series)
      (df : DataFrame) :
  In x (set_column c s df) -> In x df \/ x = (c, s).
Proof.
  unfold set_column. destruct (has_column c df).
  - induction df as [|[n s'] df IH]; simpl; [tauto|].
    destruct (String.eqb c n) eqn:E; simpl.
    + apply String.eqb_eq in E. subst n. intros [<-|H]; auto.
    + intros [<-|H]; auto. destruct (IH H); auto.
  - intros H. apply in_app_or in H. destruct H as [H|[<-|[]]]; auto.
Qed.

Lemma equal_lengths_set (c : string) (s : Series) (df : DataFrame) :
  equal_lengths df -> List.length (s_values s) = nrows df ->
  equal_lengths (set_column c s df).
Proof.
  intros Heq Hlen c' s' Hin. rewrite (nrows_set c s df Hlen).
  apply In_set_column in Hin. destruct Hin as [Hin | Hx].
  - now apply (Heq c' s').
  - inversion Hx; subst. exact Hlen.
Qed.

Lemma nrows_filter (f : string * Series -> bool) (df : DataFrame) :
  equal_lengths df -> filter f df <> [] -> nrows (filter f df) = nrows df.
Proof.
  intros Heq Hne. destruct (filter f df) as [|[n s] rest] eqn:E;
    [contradiction|].
  simpl. apply (Heq n s).
  assert (Hin : In (n, s) (filter f df)) by (rewrite E; now left).
  apply filter_In in Hin. tauto.
Qed.

Section ReplayHolds.
Context {L : Library}.

Lemma dt_field_length (f : date -> Z) (src : Series) :
  List.length (s_values (dt_field f (to_datetime parse_scalar src)))
  = List.length (s_values src).
Proof.
  unfold dt_field, to_datetime.
  destruct (forallb _ _); simpl; now rewrite !length_map.
Qed.

Lemma date_features_nrows (df : DataFrame) (src : Series) :
  equal_lengths df -> get_column "crash_date" df = Some src ->
  nrows (date_features true df) = nrows df.
Proof.
  intros Heq Hsrc.
  assert (Hlen : forall f, List.length
                   (s_values (dt_field f (to_datetime parse_scalar src)))
                 = nrows df).
  { intros f. rewrite dt_field_length. apply (Heq "crash_date").
    now apply get_column_In. }
  rewrite (date_features_on df src Hsrc).
  set (dfy := set_column "year" (dt_field d_year (to_datetime parse_scalar src)) df).
  assert (Hy : equal_lengths dfy /\ nrows dfy = nrows df).
  { split; [apply equal_lengths_set | apply nrows_set]; auto. }
  set (dfm := set_column "month" (dt_field d_month (to_datetime parse_scalar src)) dfy).
  assert (Hm : equal_lengths dfm /\ nrows dfm = nrows df).
  { destruct Hy as [Hy1 Hy2]. split.
    - apply equal_lengths_set; [exact Hy1 | now rewrite Hy2].
    - unfold dfm. rewrite nrows_set; [exact Hy2 | now rewrite Hy2]. }
  set (dfd := set_column "day" (dt_field d_day (to_datetime parse_scalar src)) dfm).
  assert (Hd : equal_lengths dfd /\ nrows dfd = nrows df).
  { destruct Hm as [Hm1 Hm2]. split.
    - apply equal_lengths_set; [exact Hm1 | now rewrite Hm2].
    - unfold dfd. rewrite nrows_set; [exact Hm2 | now rewrite Hm2]. }
  destruct Hd as [Hd1 Hd2]. rewrite <- Hd2.
  unfold drop_columns. apply nrows_filter; [exact Hd1|].
  intros Hnil.
  assert (Hget : get_column "day" (drop_columns ["crash_date"] dfd)
                 = Some (dt_field d_day (to_datetime parse_scalar src))).
  { rewrite get_drop_other by reflexivity. apply get_set_same. }
  unfold drop_columns in Hget. rewrite Hnil in Hget. discriminate.
Qed.

Lemma parsed_fields_not_selected (df : DataFrame) (src : Series) (c : string) :
  NoDup (columns df) ->
  get_column "crash_date" df = Some src ->
  Forall (fun v => is_nan v = false /\ parse_scalar v <> None) (s_values src) ->
  In c ["year"; "month"; "day"] ->
  ~ In c (numeric_columns (date_features true df)
          ++ categorical_columns (date_features true df)).
Proof.
  intros Hnd Hsrc Hall Hc.
  assert (Hnd' : NoDup (columns (date_features true df))).
  { rewrite (date_features_on df src Hsrc).
    apply NoDup_columns_drop. now repeat apply NoDup_columns_set. }
  assert (Hget : exists s, get_column c (date_features true df) = Some s /\
                           s_dtype s = int32).
  { rewrite (date_features_on df src Hsrc).
    pose proof (all_parsed src Hall) as Hp.
    destruct Hc as [<-|[<-|[<-|[]]]];
      rewrite get_drop_other by reflexivity.
    - eexists. rewrite get_set_other by discriminate.
      rewrite get_set_other by discriminate.
      rewrite get_set_same. split; [reflexivity|].
      unfold dt_field. now rewrite Hp.
    - eexists. rewrite get_set_other by discriminate.
      rewrite get_set_same. split; [reflexivity|].
      unfold dt_field. now rewrite Hp.
    - eexists. rewrite get_set_same. split; [reflexivity|].
      unfold dt_field. now rewrite Hp. }
  destruct Hget as [s [Hget Hdt]].
  intros Hin. apply in_app_or in Hin.
  unfold numeric_columns, categorical_columns in Hin.
  rewrite !(select_dtypes_get _ c s _ Hnd' Hget), Hdt in Hin.
  destruct Hin; discriminate.
Qed.

Lemma date_features_agree (df : DataFrame) (src : Series) :
  NoDup (columns df) -> equal_lengths df ->
  get_column "crash_date" df = Some src ->
  Forall (fun v => is_nan v = false /\ parse_scalar v <> None) (s_values src) ->
  agree_on (numeric_columns (date_features true df)
            ++ categorical_columns (date_features true df))
           (date_features true df) df.
Proof.
  intros Hnd Heq Hsrc Hall. split.
  - now apply (date_features_nrows df src).
  - intros c Hc. f_equal.
    assert (Hcol : In c (columns (date_features true df))).
    { apply in_app_or in Hc.
      destruct Hc as [Hc|Hc]; eapply select_dtypes_columns; exact Hc. }
    assert (Hnf : forall k, In k ["year"; "month"; "day"] -> c <> k).
    { intros k Hk ->.
      now apply (parsed_fields_not_selected df src k Hnd Hsrc Hall Hk). }
    assert (Hcd : c <> "crash_date").
    { intros ->. apply has_column_In in Hcol.
      rewrite (date_features_on df src Hsrc) in Hcol.
      rewrite has_drop in Hcol by reflexivity. discriminate. }
    rewrite (date_features_on df src Hsrc).
    rewrite get_drop_other
      by (simpl; apply String.eqb_neq in Hcd; now rewrite Hcd).
    rewrite !get_set_other; [reflexivity | | | ]; apply Hnf; simpl; auto.
Qed.

Lemma replay_frame (flag : bool) (df : DataFrame) (p : Pipeline)
      (preds : list Z) (scores : list Q) :
  NoDup (columns df) -> equal_lengths df ->
  flag = false \/ has_column "crash_date" df = false \/ dates_parse df ->
  fit_and_check (date_features flag df) = Ok (p, preds, scores) ->
  exists scored, score_frame p df = Ok (preds, scores, scored).
Proof.
  intros Hnd Heq Hcase Hfit.
  assert (Hsame : date_features flag df = df ->
                  exists scored, score_frame p df = Ok (preds, scores, scored)).
  { intros Hid. rewrite Hid in Hfit. now apply replay_same_frame. }
  destruct Hcase as [Hoff | [Hno | (src & Hsrc & Hall)]].
  - apply Hsame. apply date_features_off. now left.
  - apply Hsame. apply date_features_off. now right.
  - destruct flag; [|apply Hsame; apply date_features_off; now left].
    pose proof (fit_and_check_schema _ _ _ _ Hfit) as Hschema.
    destruct (replay_same_frame _ _ _ _ Hfit) as [scored' Hs'].
    pose proof (date_features_agree df src Hnd Heq Hsrc Hall) as Hag.
    rewrite <- Hschema in Hag.
    pose proof (labels_and_scores_of_transform p (date_features true df)) as H1.
    pose proof (labels_and_scores_of_transform p df) as H2.
    rewrite (ct_transform_agree _ _ _ Hag) in H1. rewrite <- H2 in H1.
    rewrite Hs' in H1. simpl in H1.
    destruct (score_frame p df) as [[[preds2 scores2] scored]|e];
      simpl in H1; inversion H1; subst. eauto.
Qed.

Lemma replay_after_training
        (targs : TrainArgs) (sargs : ScoreArgs) (w w' : World)
        (o : TrainOutcome) (df : DataFrame) :
  read_csv w (t_data targs) = Ok df ->
  NoDup (columns df) -> equal_lengths df ->
  use_date_features targs = false \/ has_column "crash_date" df = false \/
  dates_parse df ->
  train_main targs w = (Ok o, w') ->
  s_data sargs = t_data targs ->
  resolve_model_uri (model_uri sargs) w' = Ok (runs_uri (t_run o) "model") ->
  exists scored w'',
    score_main sargs w' = (Ok scored, w'') /\
    read_csv w'' (out sargs) = Ok scored /\
    get_column "anomaly_pred" scored = Some (pred_series (t_preds o)) /\
    get_column "anomaly_score" scored = Some (score_series (t_scores o)).
Proof.
  intros Hread Hnd Heq Hcase Htrain Hdata Huri.
  destruct (train_main_Ok _ _ _ _ Htrain) as (df0 & Hread0 & Hfit & Hfiles & Hart).
  rewrite Hread in Hread0. inversion Hread0; subst df0; clear Hread0.
  destruct (replay_frame _ _ _ _ _ Hnd Heq Hcase Hfit) as [scored Hs].
  assert (Hr' : read_csv w' (s_data sargs) = Ok df).
  { unfold read_csv in *. now rewrite Hfiles, Hdata. }
  assert (Hl : load_model w' (runs_uri (t_run o) "model") = Ok (t_pipe o)).
  { unfold load_model. rewrite Hart. simpl. now rewrite String.eqb_refl. }
  rewrite (score_main_steps sargs w' _ df (t_pipe o) Huri Hr' Hl), Hs. simpl.
  destruct (score_frame_inv _ _ _ _ _ Hs) as (_ & _ & _ & _ & -> & _).
  do 2 eexists. split; [reflexivity|]. split; [|split].
  - unfold create_visualizations, read_csv, to_csv. simpl.
    now rewrite String.eqb_refl.
  - rewrite get_set_other by discriminate. apply get_set_same.
  - apply get_set_same.
Qed.


End ReplayHolds.


(* ================================================================== *)
(** * The latest run after a training attempt *)

Section LatestAfterTraining.
Context {L : Library}.

Lemma resolve_latest_after_training
      (args : TrainArgs) (w w' : World) (r : result TrainOutcome)
      (df0 : DataFrame) :
  read_csv w (t_data args) = Ok df0 ->
  train_main args w = (r, w') ->
  registry_older w ->
  resolve_latest w' = Ok (runs_uri (fresh_run_id (entropy w)) "model").
Proof.
  intros Hread Htrain Hold.
  destruct (train_main_world _ _ _ _ _ Hread Htrain)
    as (e & g & st & ms & Hget & Hruns & Hg & _).
  apply (resolve_latest_started_last w' e (new_run w e st ms) Hget).
  split; [|split].
  - rewrite Hruns. apply in_or_app. right. now left.
  - reflexivity.
  - intros r' Hin _ Hle. rewrite Hruns in Hin.
    apply in_app_or in Hin. destruct Hin as [Hin | [<-|[]]]; [|reflexivity].
    apply in_map_iff in Hin. destruct Hin as [x [<- Hx]].
    destruct (Hg x) as (_ & _ & Hst). rewrite Hst in Hle.
    specialize (Hold x Hx). simpl in Hle. lia.
Qed.

(** X6. After a training attempt that read its file, in a registry whose
    runs all started earlier, ["latest"] resolves to the run of that
    attempt, whether it finished or failed. *)
Theorem X6_latest_is_last_attempt
        (args : TrainArgs) (w w' : World) (r : result TrainOutcome)
        (df0 : DataFrame) :
  read_csv w (t_data args) = Ok df0 ->
  train_main args w = (r, w') ->
  registry_older w ->
  resolve_model_uri "latest" w'
  = Ok (runs_uri (fresh_run_id (entropy w)) "model").
Proof.
  intros Hread Htrain Hold. unfold resolve_model_uri. simpl.
  now apply (resolve_latest_after_training args w w' r df0).
Qed.

(** X7. The resolution does not look at the status of a run: after a
    training attempt that failed while fitting, scoring with ["latest"]
    picks the failed run, finds no model under it and ends with an MLflow
    error without writing anything, whatever older models the registry
    holds. *)
Theorem X7_latest_does_not_skip_failed_runs
        (targs : TrainArgs) (sargs : ScoreArgs) (w w' : World) (ex : exn)
        (df0 df : DataFrame) :
  read_csv w (t_data targs) = Ok df0 ->
  train_main targs w = (Raise ex, w') ->
  registry_older w ->
  lookup (runs_uri (fresh_run_id (entropy w)) "model") (artifacts w) = None ->
  model_uri sargs = "latest" ->
  read_csv w (s_data sargs) = Ok df ->
  exists msg, score_main sargs w' = (Raise (MlflowException msg), w').
Proof.
  intros Hread Htrain Hold Hnone Huri Hdata.
  pose proof (resolve_latest_after_training _ _ _ _ _ Hread Htrain Hold) as Hres.
  destruct (train_main_world _ _ _ _ _ Hread Htrain)
    as (e & g & st & ms & _ & _ & _ & _ & Hfiles & _ & _ & Hfail).
  destruct Hfail as (_ & _ & _ & Hart).
  eexists. unfold score_main, resolve_model_uri. rewrite Huri. simpl.
  rewrite Hres. simpl.
  unfold read_csv in *. rewrite Hfiles.
  destruct (lookup (s_data sargs) (files w)); [|discriminate]. simpl.
  unfold load_model. rewrite Hart, Hnone. simpl. reflexivity.
Qed.

End LatestAfterTraining.

Lemma X6_latest_is_last_attempt_witness :
  resolve_model_uri "latest"
    (snd (train_main (L := Sample.library) Example.dag_train
            (Example4.with_history Example.plain)))
  = Ok "runs:/run-7/model".
Proof.
  apply (X6_latest_is_last_attempt (L := Sample.library) Example.dag_train
           (Example4.with_history Example.plain) _
           (fst (train_main (L := Sample.library) Example.dag_train
                   (Example4.with_history Example.plain)))
           Example.plain).
  - reflexivity.
  - apply surjective_pairing.
  - intros r [<-|[]]. reflexivity.
Defined.

Lemma X7_latest_does_not_skip_failed_runs_witness :
  exists msg,
    score_main (L := Sample.library) Example.dag_score
      (snd (train_main (L := Sample.library) Example.dag_train
              (Example4.with_history Example4.only_dates)))
    = (Raise (MlflowException msg),
       snd (train_main (L := Sample.library) Example.dag_train
              (Example4.with_history Example4.only_dates))).
Proof.
  apply (X7_latest_does_not_skip_failed_runs (L := Sample.library)
           Example.dag_train Example.dag_score
           (Example4.with_history Example4.only_dates) _
           (ValueError "Found array with 0 feature(s)")
           Example4.only_dates Example4.only_dates).
  - reflexivity.
  - vm_compute. reflexivity.
  - intros r [<-|[]]. reflexivity.
  - reflexivity.
  - reflexivity.
  - reflexivity.
Defined.

(* ================================================================== *)
(** * What scoring touches *)

Section ScoringEffects.
Context {L : Library}.



End ScoringEffects.


(* ================================================================== *)
(** * The report on a scored frame *)

Lemma py_eqb_int (a b : Z) : py_eqb (VInt a) (VInt b) = (a =? b).
Proof.
  unfold py_eqb. simpl.
  destruct (Z.eqb_spec a b) as [->|Hne].
  - apply Qeq_bool_refl.
  - destruct (Qeq_bool (inject_Z a) (inject_Z b)) eqn:E; [|reflexivity].
    apply Qeq_bool_iff in E. unfold Qeq in E. simpl in E. lia.
Qed.

Lemma eq_mask_preds (z : Z) (preds : list Z) :
  Report.eq_mask z (pred_series preds) = map (fun l => l =? z) preds.
Proof.
  unfold Report.eq_mask, pred_series. simpl. rewrite map_map.
  apply map_ext. intros l. apply py_eqb_int.
Qed.

Lemma label_eqb_anomaly (d : Q) : (label d =? -1) = Qltb d 0.
Proof. unfold label. destruct (Qltb d 0); reflexivity. Qed.

Lemma label_eqb_normal (d : Q) : (label d =? 1) = negb (Qltb d 0).
Proof. unfold label. destruct (Qltb d 0); reflexivity. Qed.

Lemma mask_sum_map {A : Type} (f : A -> bool) (l : list A) :
  Report.mask_sum (map f l) = List.length (filter f l).
Proof.
  unfold Report.mask_sum. induction l as [|a l IH]; simpl; [reflexivity|].
  destruct (f a); simpl; now rewrite IH.
Qed.

Lemma filter_negb_length {A : Type} (f : A -> bool) (l : list A) :
  (List.length (filter f l) + List.length (filter (fun a => negb (f a)) l)
   = List.length l)%nat.
Proof.
  induction l as [|a l IH]; simpl; [reflexivity|].
  destruct (f a); simpl; lia.
Qed.

Lemma select_map {A B : Type} (f : A -> bool) (g : A -> B) (l : list A) :
  Report.select (map f l) (map g l) = map g (filter f l).
Proof.
  induction l as [|a l IH]; simpl; [reflexivity|].
  destruct (f a); simpl; now rewrite IH.
Qed.

Section ReportFacts.
Context {L : Library}.

Lemma score_frame_columns (p : Pipeline) (df scored : DataFrame)
      (preds : list Z) (scores : list Q) :
  score_frame p df = Ok (preds, scores, scored) ->
  get_column "anomaly_pred" scored = Some (pred_series preds) /\
  get_column "anomaly_score" scored = Some (score_series scores) /\
  nrows scored = nrows df /\
  List.length scores = nrows df /\
  preds = map label scores.
Proof.
  intros Hs.
  destruct (score_frame_inv _ _ _ _ _ Hs) as (X & _ & Hp & Hsc & -> & Hlp & Hls).
  split; [rewrite get_set_other by discriminate; apply get_set_same|].
  split; [apply get_set_same|].
  split.
  { rewrite nrows_set.
    - apply nrows_set. unfold pred_series. simpl. now rewrite length_map.
    - rewrite nrows_set; unfold pred_series, score_series; simpl;
        now rewrite length_map. }
  split; [exact Hls|].
  rewrite Hp, Hsc. reflexivity.
Qed.

(** X10. On the frame a scoring run writes, the summary counts are
    consistent: the total is the number of input rows, the normal records
    and the detected anomalies add up to it, and the anomalies are exactly
    the records whose score is below zero. *)
Theorem X10_summary_counts
        (p : Pipeline) (df scored : DataFrame) (preds : list Z) (scores : list Q) :
  score_frame p df = Ok (preds, scores, scored) ->
  exists normal anomalies,
    Report.total_records scored = nrows df /\
    Report.normal_records scored = Some normal /\
    Report.anomalies_detected scored = Some anomalies /\
    (normal + anomalies = nrows df)%nat /\
    anomalies = List.length (filter (fun s => Qltb s 0) scores).
Proof.
  intros Hs.
  destruct (score_frame_columns _ _ _ _ _ Hs) as (Hp & _ & Hn & Hls & Hlab).
  unfold Report.total_records, Report.normal_records, Report.anomalies_detected.
  rewrite Hp. simpl. rewrite !eq_mask_preds, Hlab, !map_map.
  do 2 eexists. split; [exact Hn|]. split; [reflexivity|].
  split; [reflexivity|].
  rewrite !mask_sum_map.
  rewrite (filter_ext _ _ label_eqb_normal), (filter_ext _ _ label_eqb_anomaly).
  split; [|reflexivity].
  rewrite <- Hls, Nat.add_comm. apply filter_negb_length.
Qed.

End ReportFacts.

Lemma X10_summary_counts_witness :
  exists normal anomalies,
    Report.total_records Example2.scored_new_weather = 2%nat /\
    Report.normal_records Example2.scored_new_weather = Some normal /\
    Report.anomalies_detected Example2.scored_new_weather = Some anomalies /\
    (normal + anomalies = 2)%nat /\
    anomalies = 0%nat.
Proof.
  destruct (X10_summary_counts (L := Sample.library) Example2.plain_pipe
              Example2.new_weather Example2.scored_new_weather
              [1; 1] [132049 # 1728196; 332049 # 1728196]%Q)
    as (normal & anomalies & H1 & H2 & H3 & H4 & H5).
  - vm_compute. reflexivity.
  - exists normal, anomalies. repeat split; auto.
Defined.

Lemma insert_by_Sorted (x : Q) (l : list Q) :
  Sorted Qle l -> Sorted Qle (insert_by Qle_bool x l).
Proof.
  induction l as [|a l IH]; simpl; intros Hs.
  - repeat constructor.
  - destruct (Qle_bool x a) eqn:E.
    + constructor; [exact Hs|]. constructor. now apply Qle_bool_iff.
    + assert (Hax : (a <= x)%Q).
      { destruct (Qlt_le_dec a x) as [Hlt|Hle]; [now apply Qlt_le_weak|].
        apply Qle_bool_iff in Hle. congruence. }
      inversion Hs as [|? ? Hs' Hhd]; subst.
      constructor; [now apply IH|].
      destruct l as [|b l]; simpl; [now constructor|].
      destruct (Qle_bool x b); constructor; [exact Hax|].
      now inversion Hhd.
Qed.

Lemma sort_by_Sorted (l : list Q) : Sorted Qle (sort_by Qle_bool l).
Proof.
  unfold sort_by. induction l as [|a l IH]; simpl; [constructor|].
  now apply insert_by_Sorted.
Qed.

Lemma firstn_Sorted (n : nat) (l : list Q) :
  Sorted Qle l -> Sorted Qle (firstn n l).
Proof.
  revert l. induction n as [|n IH]; intros l Hs; simpl; [constructor|].
  destruct l as [|a l]; [constructor|].
  inversion Hs as [|? ? Hs' Hhd]; subst.
  constructor; [now apply IH|].
  destruct n; simpl; [constructor|].
  destruct l as [|b l]; [constructor|]. constructor. now inversion Hhd.
Qed.

Lemma In_firstn {A : Type} (n : nat) (l : list A) (x : A) :
  In x (firstn n l) -> In x l.
Proof.
  intros H. rewrite <- (firstn_skipn n l). apply in_or_app. now left.
Qed.

Lemma nsmallest_floats (n : nat) (l : list Q) :
  Report.nsmallest n (map VFloat l)
  = map Some (firstn n (sort_by Qle_bool l)).
Proof.
  unfold Report.nsmallest. rewrite map_map. simpl.
  assert (Hp : present (map (fun x => Some x) l) = l).
  { unfold present. induction l as [|a l IH]; simpl; [reflexivity|].
    now rewrite IH. }
  assert (Hf : filter (fun o : option Q => negb (is_some o))
                      (map (fun x => Some x) l) = []).
  { clear Hp. induction l as [|a l IH]; simpl; [reflexivity | exact IH]. }
  rewrite Hp, Hf, app_nil_r. apply firstn_map.
Qed.

Section TopAnomalies.
Context {L : Library}.

(** X11. On the frame a scoring run writes, the bars of the chart of top
    anomalies are the lowest scores of the batch that are below zero, in
    ascending order and cut after the twentieth: at most 20 values, as
    many as there are anomalies when these are fewer. *)
Theorem X11_top_anomalies
        (p : Pipeline) (df scored : DataFrame) (preds : list Z) (scores : list Q) :
  score_frame p df = Ok (preds, scores, scored) ->
  exists top,
    Report.top_anomalies scored = Some (map Some top) /\
    top = firstn 20 (sort_by Qle_bool (filter (fun s => Qltb s 0) scores)) /\
    List.length top
    = Nat.min 20 (List.length (filter (fun s => Qltb s 0) scores)) /\
    Sorted Qle top /\
    Forall (fun s => (s < 0)%Q) top.
Proof.
  intros Hs.
  destruct (score_frame_columns _ _ _ _ _ Hs) as (Hp & Hsc & _ & _ & Hlab).
  eexists. split; [|split; [reflexivity|]].
  - unfold Report.top_anomalies, Report.scores_labelled.
    rewrite Hp, Hsc. simpl. rewrite eq_mask_preds, Hlab, map_map.
    unfold score_series. simpl.
    rewrite (map_ext _ _ label_eqb_anomaly).
    rewrite select_map. now rewrite nsmallest_floats.
  - split; [|split].
    + rewrite length_firstn. f_equal.
      apply Permutation_length. apply sort_by_Permutation.
    + apply firstn_Sorted. apply sort_by_Sorted.
    + apply Forall_forall. intros s Hin. apply In_firstn in Hin.
      apply sort_by_In in Hin. apply filter_In in Hin.
      destruct Hin as [_ Hlt]. unfold Qltb in Hlt.
      destruct (Qlt_le_dec s 0) as [H|H]; [exact H|].
      apply Qle_bool_iff in H. rewrite H in Hlt. discriminate.
Qed.

End TopAnomalies.

Lemma X11_top_anomalies_witness :
  exists top,
    Report.top_anomalies
      (set_column "anomaly_score"
         (score_series [-867951 # 1728196; -1867951 # 1728196]%Q)
         (set_column "anomaly_pred" (pred_series [-1; -1]) Example2.fast))
    = Some (map Some top) /\
    top = [-1867951 # 1728196; -867951 # 1728196]%Q /\
    List.length top = 2%nat /\
    Sorted Qle top /\
    Forall (fun s => (s < 0)%Q) top.
Proof.
  apply (X11_top_anomalies (L := Sample.library) Example2.plain_pipe
           Example2.fast _ [-1; -1]
           [-867951 # 1728196; -1867951 # 1728196]%Q).
  vm_compute. reflexivity.
Defined.

(* ================================================================== *)
(** * The DAG *)

Section DagFacts.
Context {L : Library}.



(** X12. When the first attempt of the training task fails while
    fitting, the retry a minute later fails with the same exception, the
    scoring task is not run, and the registry ends with two more runs,
    with no new artifact and no file touched. *)
Theorem X12_dag_training_failure_is_repeated
        (w w1 : World) (ex : exn) (df0 : DataFrame) :
  read_csv w Dag.DATA_PATH = Ok df0 ->
  Dag.train_model w = (Raise ex, w1) ->
  exists w2,
    Dag.dag_run w = (Dag.TrainFailed ex, w2) /\
    files w2 = files w /\
    artifacts w2 = artifacts w /\
    List.length (runs w2) = S (S (List.length (runs w))) /\
    clock w2 = clock w + Dag.retry_delay.
Proof.
  intros Hread H1. unfold Dag.train_model in H1.
  destruct (train_main_world (mkTrainArgs Dag.DATA_PATH true) _ _ _ _ Hread H1)
    as (e & g & st & ms & _ & Hruns1 & _ & _ & Hf1 & Hc1 & _ & Hr1).
  destruct Hr1 as (_ & _ & _ & Ha1).
  assert (Hread2 : read_csv (Dag.sleep Dag.retry_delay w1) Dag.DATA_PATH = Ok df0).
  { unfold read_csv in *. simpl. now rewrite Hf1. }
  destruct (train_main (mkTrainArgs Dag.DATA_PATH true)
                       (Dag.sleep Dag.retry_delay w1)) as [r2 w2] eqn:H2.
  assert (Hsame : same_fit (Raise ex) r2).
  { pose proof (same_fit_of_same_file (mkTrainArgs Dag.DATA_PATH true) w
                  (Dag.sleep Dag.retry_delay w1)) as Hs.
    simpl in Hs. rewrite Hread, Hread2 in Hs. specialize (Hs eq_refl).
    rewrite H1, H2 in Hs. exact Hs. }
  destruct r2 as [o2|ex2]; simpl in Hsame; [contradiction|]. subst ex2.
  destruct (train_main_world (mkTrainArgs Dag.DATA_PATH true) _ _ _ _ Hread2 H2)
    as (e' & g' & st' & ms' & _ & Hruns2 & _ & _ & Hf2 & Hc2 & _ & Hr2).
  destruct Hr2 as (_ & _ & _ & Ha2).
  exists w2. split.
  { unfold Dag.dag_run, Dag.retries, Dag.train_model. simpl.
    rewrite H1. rewrite H2. reflexivity. }
  split; [rewrite Hf2; simpl; exact Hf1|].
  split; [rewrite Ha2; simpl; exact Ha1|].
  split.
  { rewrite Hruns2, length_app, length_map. simpl.
    rewrite Hruns1, length_app, length_map. simpl. lia. }
  rewrite Hc2. simpl. now rewrite Hc1.
Qed.


End DagFacts.

Lemma X12_dag_training_failure_is_repeated_witness :
  exists w2,
    Dag.dag_run (L := Sample.library) (Example4.dag_world Example4.only_dates)
    = (Dag.TrainFailed (ValueError "Found array with 0 feature(s)"), w2) /\
    files w2 = [(Dag.DATA_PATH, Example4.only_dates)] /\
    artifacts w2 = [] /\
    List.length (runs w2) = 2%nat /\
    clock w2 = 61000.
Proof.
  apply (X12_dag_training_failure_is_repeated (L := Sample.library)
           (Example4.dag_world Example4.only_dates)
           (snd (Dag.train_model (L := Sample.library)
                   (Example4.dag_world Example4.only_dates)))
           (ValueError "Found array with 0 feature(s)")
           Example4.only_dates).
  - reflexivity.
  - vm_compute. reflexivity.
Defined.


Section DagSuccess.
Context {L : Library}.

Lemma score_main_Ok_files (args : ScoreArgs) (w w' : World) (scored : DataFrame) :
  score_main args w = (Ok scored, w') ->
  files w' = (out args, scored) :: files w /\
  runs w' = runs w /\ artifacts w' = artifacts w.
Proof.
  unfold score_main.
  destruct (uri <- resolve_model_uri (model_uri args) w ;;
            df <- read_csv w (s_data args) ;;
            p <- load_model w uri ;;
            r <- score_frame p df ;;
            Ok (snd r)) as [sc|e]; [|discriminate].
  intros H. inversion H; subst. simpl. auto.
Qed.

(** X14. A DAG run succeeds end to end when the training task succeeds
    on a file that has no [crash_date] column or whose dates all parse, in
    a registry whose runs all started earlier: the scoring task resolves
    the run just trained, and the output file holds the labels and scores
    of the training self-check; the data file is still what it was and the
    registry holds what training left. *)
Theorem X14_dag_run_succeeds
        (w w1 : World) (o : TrainOutcome) (df : DataFrame) :
  read_csv w Dag.DATA_PATH = Ok df ->
  NoDup (columns df) -> equal_lengths df ->
  has_column "crash_date" df = false \/ dates_parse df ->
  registry_older w ->
  Dag.train_model w = (Ok o, w1) ->
  exists scored w2,
    Dag.dag_run w = (Dag.Succeeded o scored, w2) /\
    read_csv w2 Dag.SCORED_PATH = Ok scored /\
    read_csv w2 Dag.DATA_PATH = Ok df /\
    get_column "anomaly_pred" scored = Some (pred_series (t_preds o)) /\
    get_column "anomaly_score" scored = Some (score_series (t_scores o)) /\
    runs w2 = runs w1 /\ artifacts w2 = artifacts w1.
Proof.
  intros Hread Hnd Heq Hcase Hold Ht. unfold Dag.train_model in Ht.
  pose proof (resolve_latest_after_training
                (mkTrainArgs Dag.DATA_PATH true) w w1 (Ok o) df Hread Ht Hold)
    as Hres.
  destruct (train_main_world (mkTrainArgs Dag.DATA_PATH true) _ _ _ _ Hread Ht)
    as (e & g & st & ms & _ & _ & _ & _ & Hf1 & _ & _ & Hok).
  destruct Hok as (_ & Hid & _).
  set (sargs := mkScoreArgs Dag.DATA_PATH "latest" Dag.SCORED_PATH
                            "/opt/airflow/dags/visualizations").
  destruct (replay_after_training (mkTrainArgs Dag.DATA_PATH true) sargs
              w w1 o df Hread Hnd Heq) as (scored & w2 & Hs & Hout & Hp & Hsc).
  - right. exact Hcase.
  - exact Ht.
  - reflexivity.
  - unfold resolve_model_uri. simpl. rewrite Hres, Hid. reflexivity.
  - destruct (score_main_Ok_files _ _ _ _ Hs) as (Hf2 & Hr2 & Ha2).
    exists scored, w2. split.
    { unfold Dag.dag_run, Dag.retries, Dag.train_model, Dag.score_model.
      simpl. rewrite Ht. fold sargs. rewrite Hs. reflexivity. }
    split; [exact Hout|]. split.
    { unfold read_csv in *. rewrite Hf2. simpl. now rewrite Hf1. }
    auto.
Qed.

End DagSuccess.

Lemma X14_dag_run_succeeds_witness :
  exists scored w2,
    Dag.dag_run (L := Sample.library) (Example4.dag_world Example.clean_dates)
    = (Dag.Succeeded (Example4.dag_outcome Example.clean_dates) scored, w2) /\
    read_csv w2 Dag.SCORED_PATH = Ok scored /\
    read_csv w2 Dag.DATA_PATH = Ok Example.clean_dates /\
    get_column "anomaly_pred" scored
    = Some (pred_series (t_preds (Example4.dag_outcome Example.clean_dates))) /\
    get_column "anomaly_score" scored
    = Some (score_series (t_scores (Example4.dag_outcome Example.clean_dates))) /\
    runs w2 = runs (snd (Dag.train_model (L := Sample.library)
                           (Example4.dag_world Example.clean_dates))) /\
    artifacts w2 = artifacts (snd (Dag.train_model (L := Sample.library)
                                     (Example4.dag_world Example.clean_dates))).
Proof.
  apply (X14_dag_run_succeeds (L := Sample.library)
           (Example4.dag_world Example.clean_dates) _
           (Example4.dag_outcome Example.clean_dates) Example.clean_dates).
  - reflexivity.
  - repeat constructor; simpl; intuition discriminate.
  - intros c s [H|[H|[]]]; inversion H; reflexivity.
  - right.
    exists (mkSeries object_ [VStr "2021-03-04"; VStr "2022-11-30"]).
    split; [reflexivity|]. repeat constructor; simpl; discriminate.
  - intros r [].
  - vm_compute. reflexivity.
Defined.

(* ================================================================== *)
(** * The pie chart *)

Lemma dedup_labels (preds : list Z) :
  Forall (fun l => l = 1 \/ l = -1) preds ->
  dedup_by py_eqb (map VInt preds) =
  match preds with
  | [] => []
  | x :: _ =>
      VInt x :: (if existsb (Z.eqb (- x)) preds then [VInt (- x)] else [])
  end.
Proof.
  induction 1 as [|x l Hx Hl IH]; [reflexivity|].
  cbn [map dedup_by]. rewrite IH. destruct l as [|y l'].
  - destruct Hx as [->| ->]; reflexivity.
  - inversion Hl as [|? ? Hy _]; subst.
    destruct Hx as [->| ->], Hy as [->| ->]; cbn;
      destruct (existsb _ l'); reflexivity.
Qed.

Lemma count_of_labels (z : Z) (preds : list Z) :
  count_of (VInt z) (map VInt preds) = List.length (filter (Z.eqb z) preds).
Proof.
  unfold count_of. induction preds as [|x l IH]; [reflexivity|].
  cbn [map filter]. rewrite py_eqb_int.
  destruct (z =? x); simpl; now rewrite IH.
Qed.

Lemma existsb_count (z : Z) (preds : list Z) :
  existsb (Z.eqb z) preds = (0 <? List.length (filter (Z.eqb z) preds))%nat.
Proof.
  induction preds as [|x l IH]; [reflexivity|].
  simpl. destruct (z =? x); simpl; [reflexivity | exact IH].
Qed.

Lemma not_nan_labels (preds : list Z) :
  filter (fun c => negb (is_nan c)) (map VInt preds) = map VInt preds.
Proof.
  induction preds as [|x l IH]; [reflexivity|]. simpl. now rewrite IH.
Qed.

Lemma value_counts_labels (preds : list Z) :
  Forall (fun l => l = 1 \/ l = -1) preds ->
  (List.length (filter (Z.eqb 1) preds)
   < List.length (filter (Z.eqb (-1)) preds))%nat ->
  Report.value_counts (pred_series preds) =
  (VInt (-1), List.length (filter (Z.eqb (-1)) preds))
    :: (if (0 <? List.length (filter (Z.eqb 1) preds))%nat
        then [(VInt 1, List.length (filter (Z.eqb 1) preds))] else []).
Proof.
  intros Hall Hlt. unfold Report.value_counts, pred_series. cbn [s_values].
  rewrite not_nan_labels, (dedup_labels preds Hall).
  assert (Hhead : match preds with
                  | [] => False
                  | x :: _ =>
                      (x = 1 /\ (0 < List.length (filter (Z.eqb 1) preds))%nat)
                      \/ x = -1
                  end).
  { destruct preds as [|x l]; [simpl in Hlt; lia|].
    inversion Hall as [|? ? Hx _]; subst.
    destruct Hx as [->| ->]; [left | right; reflexivity].
    split; [reflexivity | simpl; lia]. }
  pose proof (count_of_labels 1 preds) as Hc1.
  pose proof (count_of_labels (-1) preds) as Hca.
  pose proof (existsb_count 1 preds) as He1.
  pose proof (existsb_count (-1) preds) as Hea.
  set (vals := map VInt preds) in *.
  set (n := List.length (filter (Z.eqb 1) preds)) in *.
  set (a := List.length (filter (Z.eqb (-1)) preds)) in *.
  clearbody vals n a. clear Hall.
  destruct preds as [|x l]; [contradiction|].
  destruct Hhead as [[-> Hn] | ->].
  - change (- (1)) with (-1). rewrite Hea.
    assert (Ha : (0 <? a)%nat = true) by (apply Nat.ltb_lt; lia).
    assert (Hn' : (0 <? n)%nat = true) by (apply Nat.ltb_lt; exact Hn).
    rewrite Ha, Hn'. cbn [map]. rewrite Hc1, Hca.
    unfold sort_by. cbn [fold_right insert_by snd].
    assert (Hle : (a <=? n)%nat = false) by (apply Nat.leb_gt; exact Hlt).
    now rewrite Hle.
  - change (- (-1)) with 1. rewrite He1.
    destruct (0 <? n)%nat; cbn [map]; rewrite ?Hc1, Hca.
    + unfold sort_by. cbn [fold_right insert_by snd].
      assert (Hle : (n <=? a)%nat = true) by (apply Nat.leb_le; lia).
      now rewrite Hle.
    + reflexivity.
Qed.

Section Pie.
Context {L : Library}.

(** X15. The colours of the pie chart go by position, not by label: on
    the frame a scoring run writes, when the anomalies outnumber the
    normal records, the first slice is the one labelled Anomaly and it
    gets the first colour, #90EE90; the slice labelled Normal, if there is
    one, gets #FF6B6B. *)
Theorem X15_pie_colours_by_position
        (p : Pipeline) (df scored : DataFrame) (preds : list Z) (scores : list Q) :
  score_frame p df = Ok (preds, scores, scored) ->
  (List.length (filter (Z.eqb 1) preds)
   < List.length (filter (Z.eqb (-1)) preds))%nat ->
  Report.pie scored =
  Some (Report.mkSlice "Anomaly" (List.length (filter (Z.eqb (-1)) preds)) "#90EE90"
        :: (if (0 <? List.length (filter (Z.eqb 1) preds))%nat
            then [Report.mkSlice "Normal" (List.length (filter (Z.eqb 1) preds))
                                 "#FF6B6B"]
            else [])).
Proof.
  intros Hs Hlt.
  destruct (score_frame_columns _ _ _ _ _ Hs) as (Hp & _ & _ & _ & Hlab).
  assert (Hall : Forall (fun l => l = 1 \/ l = -1) preds).
  { rewrite Hlab. apply Forall_forall. intros l Hl.
    apply in_map_iff in Hl. destruct Hl as [d [<- _]].
    unfold label. destruct (Qltb d 0); auto. }
  unfold Report.pie. rewrite Hp. simpl.
  rewrite (value_counts_labels preds Hall Hlt).
  destruct (0 <? List.length (filter (Z.eqb 1) preds))%nat; reflexivity.
Qed.

End Pie.

Lemma X15_pie_colours_by_position_witness :
  Report.pie
    (set_column "anomaly_score"
       (score_series [-867951 # 1728196; -1867951 # 1728196]%Q)
       (set_column "anomaly_pred" (pred_series [-1; -1]) Example2.fast))
  = Some [Report.mkSlice "Anomaly" 2 "#90EE90"].
Proof.
  apply (X15_pie_colours_by_position (L := Sample.library) Example2.plain_pipe
           Example2.fast _ [-1; -1]
           [-867951 # 1728196; -1867951 # 1728196]%Q).
  - vm_compute. reflexivity.
  - simpl. lia.
Defined.

(* ================================================================== *)
(** * The trend chart *)

Section Trend.
Context {L : Library}.

(** X16. The scoring script draws the trend chart exactly when the file
    it scored already has a year and a month column: it never derives
    them. The frame the training script fits with date features on does
    have both whenever the file has a [crash_date] column. *)
Theorem X16_trend_needs_columns_in_file
        (p : Pipeline) (df scored : DataFrame) (preds : list Z) (scores : list Q) :
  score_frame p df = Ok (preds, scores, scored) ->
  Report.has_trend scored = Report.has_trend df /\
  (has_column "crash_date" df = true ->
   Report.has_trend (date_features true df) = true).
Proof.
  intros Hs.
  destruct (score_frame_inv _ _ _ _ _ Hs) as (_ & _ & _ & _ & -> & _).
  split.
  - unfold Report.has_trend. rewrite !has_column_get.
    now rewrite !get_set_other by discriminate.
  - intros Hcd. rewrite has_column_get in Hcd.
    destruct (get_column "crash_date" df) as [src|] eqn:Hsrc; [|discriminate].
    unfold Report.has_trend. rewrite !has_column_get.
    rewrite (date_features_on df src Hsrc).
    rewrite !get_drop_other by reflexivity.
    rewrite (get_set_other "year" "day") by discriminate.
    rewrite (get_set_other "year" "month") by discriminate.
    rewrite get_set_same.
    rewrite (get_set_other "month" "day") by discriminate.
    rewrite get_set_same. reflexivity.
Qed.

End Trend.

Lemma X16_trend_needs_columns_in_file_witness :
  Report.has_trend
    (set_column "anomaly_score"
       (score_series [32049 # 1728196; 232049 # 1728196; -167951 # 1728196]%Q)
       (set_column "anomaly_pred" (pred_series [1; 1; -1]) Example.gap_dates))
  = false /\
  Report.has_trend (date_features (L := Sample.library) true Example.gap_dates)
  = true.
Proof.
  destruct (X16_trend_needs_columns_in_file (L := Sample.library)
              Example2.plain_pipe Example.gap_dates
              (set_column "anomaly_score"
                 (score_series [32049 # 1728196; 232049 # 1728196;
                                -167951 # 1728196]%Q)
                 (set_column "anomaly_pred" (pred_series [1; 1; -1])
                    Example.gap_dates))
              [1; 1; -1]
              [32049 # 1728196; 232049 # 1728196; -167951 # 1728196]%Q)
    as [H1 H2].
  - vm_compute. reflexivity.
  - split; [rewrite H1; reflexivity | apply H2; reflexivity].
Defined.
